(** * batchHtmlToWord: the HTML-to-Word batch converter (src/1.py)

    A shallow embedding of [HtmlToWordConverter] and proofs of the properties
    its specification states.

    Conventions of the embedding.
    - A Python [str] is a Rocq [string] holding the UTF-8 encoding of the
      text; [bytes] is [list byte].  The operations the program applies to
      strings only look for ASCII characters ('/', '.', '?', '#', the letters
      of "data:", ".html", ...), none of which occurs inside a multi-byte
      UTF-8 sequence.  [lower] and [strip] act on the ASCII range.
    - [os.path] is [posixpath].
    - Everything the program asks of the operating system and of the
      libraries it wraps (codecs, chardet, BeautifulSoup's parser,
      python-docx's validation and serialisation) is a field of the
      environment [Env]; the theorems hold for every environment.
    - An exception is a value of [exn] (the classes deriving from
      [Exception]); an asynchronous [KeyboardInterrupt] is outside the model.
    - Logging and printing are not modelled. *)

From Stdlib Require Import String Ascii List Bool Arith NArith Lia Floats.
Import ListNotations.
Set Warnings "-inexact-float,-register-all".
Open Scope string_scope.
Open Scope list_scope.
Open Scope nat_scope.

(** String concatenation, written apart from the concatenation of lists. *)
Infix "+:+" := String.append (at level 60, right associativity) : string_scope.

Set Implicit Arguments.

(* ===================================================================== *)
(** ** Python strings *)
(* ===================================================================== *)

Module PyStr.

Definition is_upper (c : ascii) : bool :=
  let n := nat_of_ascii c in (65 <=? n) && (n <=? 90).

Definition lower_char (c : ascii) : ascii :=
  if is_upper c then ascii_of_nat (nat_of_ascii c + 32) else c.

(** [s.lower()] *)
Fixpoint lower (s : string) : string :=
  match s with
  | EmptyString => EmptyString
  | String c r => String (lower_char c) (lower r)
  end.

(** [bool(s)]: a string is truthy when it is not empty. *)
Definition truthy (s : string) : bool :=
  match s with EmptyString => false | String _ _ => true end.

(** [s.startswith(p)] *)
Definition startswith (s p : string) : bool := String.prefix p s.

(** [s.endswith(suf)] *)
Definition endswith (s suf : string) : bool :=
  (String.length suf <=? String.length s) &&
  String.eqb (substring (String.length s - String.length suf) (String.length suf) s) suf.

(** [sub in s] *)
Fixpoint contains (sub s : string) : bool :=
  String.prefix sub s ||
  match s with
  | EmptyString => false
  | String _ r => contains sub r
  end.

(** [x in l] for a list of strings *)
Definition mem (x : string) (l : list string) : bool :=
  existsb (String.eqb x) l.

(** The ASCII characters [str.strip()] removes. *)
Definition is_space (c : ascii) : bool :=
  let n := nat_of_ascii c in
  ((9 <=? n) && (n <=? 13)) || ((28 <=? n) && (n <=? 32)).

Fixpoint lstrip (s : string) : string :=
  match s with
  | EmptyString => EmptyString
  | String c r => if is_space c then lstrip r else s
  end.

Fixpoint rstrip (s : string) : string :=
  match s with
  | EmptyString => EmptyString
  | String c r =>
      match rstrip r with
      | EmptyString => if is_space c then EmptyString else String c EmptyString
      | r' => String c r'
      end
  end.

(** [s.strip()] *)
Definition strip (s : string) : string := rstrip (lstrip s).

(** [s.split(sep)[0]] for a one-character separator: the text before its
    first occurrence. *)
Fixpoint split_first (sep : ascii) (s : string) : string :=
  match s with
  | EmptyString => EmptyString
  | String c r => if Ascii.eqb c sep then EmptyString else String c (split_first sep r)
  end.

(** [s.split(sep)] for a one-character separator. *)
Fixpoint split (sep : ascii) (s : string) : list string :=
  match s with
  | EmptyString => [EmptyString]
  | String c r =>
      if Ascii.eqb c sep then EmptyString :: split sep r
      else match split sep r with
           | [] => [String c EmptyString]
           | h :: t => String c h :: t
           end
  end.

(** [s.rfind(c)] as an option: the last index of [c]. *)
Fixpoint rfind (c : ascii) (s : string) : option nat :=
  match s with
  | EmptyString => None
  | String a r =>
      match rfind c r with
      | Some i => Some (S i)
      | None => if Ascii.eqb a c then Some 0 else None
      end
  end.

(** [s[i:]] and [s[:i]] *)
Definition from (i : nat) (s : string) : string := substring i (String.length s - i) s.
Definition upto (i : nat) (s : string) : string := substring 0 i s.

(** A UTF-8 continuation byte (10xxxxxx): it starts no character. *)
Definition is_continuation (c : ascii) : bool :=
  let n := nat_of_ascii c in (128 <=? n) && (n <=? 191).

(** [s[:n]] counted in characters: the first [n] characters with their
    continuation bytes. *)
Fixpoint take_chars (n : nat) (s : string) : string :=
  match s with
  | EmptyString => EmptyString
  | String c r =>
      if is_continuation c then String c (take_chars n r)
      else match n with
           | 0 => EmptyString
           | S n' => String c (take_chars n' r)
           end
  end.

(** The byte order mark U+FEFF as the program sees it at the head of a
    decoded text. *)
Definition BOM : string :=
  String (ascii_of_nat 239) (String (ascii_of_nat 187) (String (ascii_of_nat 191) EmptyString)).

(** [if content.startswith(U+FEFF): content = content[1:]] *)
Definition strip_bom (content : string) : string :=
  if startswith content BOM then from 3 content else content.

Definition CR : ascii := ascii_of_nat 13.
Definition LF : ascii := ascii_of_nat 10.

(** What reading a file opened in text mode does to line ends: "\r\n" and a
    lone "\r" become "\n". *)
Fixpoint universal_newlines (s : string) : string :=
  match s with
  | EmptyString => EmptyString
  | String c r =>
      if Ascii.eqb c CR then
        match r with
        | String c' r' =>
            if Ascii.eqb c' LF then String LF (universal_newlines r')
            else String LF (universal_newlines r)
        | EmptyString => String LF EmptyString
        end
      else String c (universal_newlines r)
  end.

(** [str(n)] for a one-digit number *)
Definition digit (n : nat) : string :=
  String (ascii_of_nat (48 + n)) EmptyString.

End PyStr.

(* ===================================================================== *)
(** ** os.path (posixpath) *)
(* ===================================================================== *)

Module OsPath.
Import PyStr.

Definition sep : ascii := "/"%char.

(** [os.path.basename(p)]: what follows the last slash. *)
Definition basename (p : string) : string :=
  match rfind sep p with
  | Some i => from (S i) p
  | None => p
  end.

Fixpoint all_slashes (s : string) : bool :=
  match s with
  | EmptyString => true
  | String c r => Ascii.eqb c sep && all_slashes r
  end.

Fixpoint rstrip_slashes (s : string) : string :=
  match s with
  | EmptyString => EmptyString
  | String c r =>
      match rstrip_slashes r with
      | EmptyString => if Ascii.eqb c sep then EmptyString else String c EmptyString
      | r' => String c r'
      end
  end.

(** [os.path.dirname(p)]: the head up to the last slash, without its
    trailing slashes unless it is made of slashes only. *)
Definition dirname (p : string) : string :=
  match rfind sep p with
  | Some i =>
      let head := upto (S i) p in
      if all_slashes head then head else rstrip_slashes head
  | None => EmptyString
  end.

(** [os.path.join(a, b)] *)
Definition join (a b : string) : string :=
  if startswith b "/" then b
  else if negb (truthy a) || endswith a "/" then a +:+ b
  else a +:+ "/" +:+ b.

Fixpoint all_dots (s : string) : bool :=
  match s with
  | EmptyString => true
  | String c r => Ascii.eqb c "."%char && all_dots r
  end.

(** [os.path.splitext(p)]: the extension starts at the last dot of the last
    component, unless only dots precede it there. *)
Definition splitext (p : string) : string * string :=
  let start := match rfind sep p with Some i => S i | None => 0 end in
  match rfind "."%char p with
  | Some d =>
      if (start <=? d) && negb (all_dots (substring start (d - start) p))
      then (upto d p, from d p)
      else (p, EmptyString)
  | None => (p, EmptyString)
  end.

End OsPath.


(* ===================================================================== *)
(** ** Exceptions, results and mutable state *)
(* ===================================================================== *)

(** The exception classes the program meets; all derive from [Exception]. *)
Inductive exn : Type :=
| UnicodeDecodeError
| LookupError
| OSError
| ValueError
| IndexError
| AttributeError
| OtherException (msg : string).

Definition is_UnicodeDecodeError (e : exn) : bool :=
  match e with UnicodeDecodeError => true | _ => false end.

(** What a call does: it returns a value or raises. *)
Inductive outcome (A : Type) : Type :=
| Ok (a : A)
| Raise (e : exn).
Arguments Ok {A} a.
Arguments Raise {A} e.

Definition returns {A} (o : outcome A) : bool :=
  match o with Ok _ => true | Raise _ => false end.

Module Err.

Definition bind {A B} (m : outcome A) (k : A -> outcome B) : outcome B :=
  match m with
  | Ok a => k a
  | Raise e => Raise e
  end.

(** [try: m  except: h] and [try: m  except Exception: h] *)
Definition try_except {A} (m : outcome A) (h : exn -> outcome A) : outcome A :=
  match m with
  | Ok a => Ok a
  | Raise e => h e
  end.

(** [try: m  except C: h] for a class [C] given by its test. *)
Definition try_except_only {A} (C : exn -> bool) (m : outcome A) (h : exn -> outcome A)
  : outcome A :=
  match m with
  | Ok a => Ok a
  | Raise e => if C e then h e else Raise e
  end.

End Err.

Declare Scope err_scope.
Delimit Scope err_scope with err.
Notation "x <- m ;; k" := (Err.bind m (fun x => k))
  (at level 61, m at next level, right associativity) : err_scope.

(** Code that mutates an object (the document under construction, the file
    system, the converter's counters): the state is threaded, and an
    exception leaves the state as it was when it was raised. *)
Module St.

Definition M (S A : Type) : Type := S -> outcome A * S.

Definition ret {S A} (a : A) : M S A := fun s => (Ok a, s).

Definition bind {S A B} (m : M S A) (k : A -> M S B) : M S B :=
  fun s =>
    match m s with
    | (Ok a, s') => k a s'
    | (Raise e, s') => (Raise e, s')
    end.

Definition raise {S A} (e : exn) : M S A := fun s => (Raise e, s).

Definition lift {S A} (o : outcome A) : M S A := fun s => (o, s).

Definition get {S} : M S S := fun s => (Ok s, s).

Definition modify {S} (f : S -> S) : M S unit := fun s => (Ok tt, f s).

(** [try: m  except Exception: h]; the handler starts from the state the
    exception left. *)
Definition try_except {S A} (m : M S A) (h : exn -> M S A) : M S A :=
  fun s =>
    match m s with
    | (Ok a, s') => (Ok a, s')
    | (Raise e, s') => h e s'
    end.

(** A computation on one part of the state. *)
Definition on_fst {S T A} (m : M S A) : M (S * T) A :=
  fun st => match m (fst st) with (o, s') => (o, (s', snd st)) end.

Definition on_snd {S T A} (m : M T A) : M (S * T) A :=
  fun st => match m (snd st) with (o, t') => (o, (fst st, t')) end.

(** [if c: m] *)
Definition when {S} (c : bool) (m : M S unit) : M S unit :=
  if c then m else ret tt.

(** [for x in l: body(x)] *)
Fixpoint for_each {S A} (l : list A) (body : A -> M S unit) : M S unit :=
  match l with
  | [] => ret tt
  | x :: rest => bind (body x) (fun _ => for_each rest body)
  end.

End St.

Declare Scope st_scope.
Delimit Scope st_scope with st.
Notation "x <- m ;; k" := (St.bind m (fun x => k))
  (at level 61, m at next level, right associativity) : st_scope.
Notation "m ;;; k" := (St.bind m (fun _ => k))
  (at level 61, right associativity) : st_scope.

(** [l[i] = f(l[i])]: an update in place; nothing happens out of range. *)
Fixpoint list_alter {A} (f : A -> A) (i : nat) (l : list A) : list A :=
  match l, i with
  | [], _ => []
  | x :: r, 0 => f x :: r
  | x :: r, S i' => x :: list_alter f i' r
  end.

(* ===================================================================== *)
(** ** The parsed page (BeautifulSoup) *)
(* ===================================================================== *)

Module Soup.
Import PyStr.

(** A node of the parse tree: a text node ([NavigableString]), a comment
    (a [NavigableString] that [get_text] leaves out), or a tag. *)
Inductive node : Type :=
| Text (s : string)
| Comment (s : string)
| Tag (name : string) (attrs : list (string * string)) (children : list node).

(** [tag.children] *)
Definition children (n : node) : list node :=
  match n with
  | Tag _ _ cs => cs
  | _ => []
  end.

(** [tag.descendants]: every node below, in document order. *)
Fixpoint descendants (n : node) : list node :=
  match n with
  | Tag _ _ cs => flat_map (fun c => c :: descendants c) cs
  | _ => []
  end.

Definition named (names : list string) (n : node) : bool :=
  match n with
  | Tag name _ _ => mem name names
  | _ => false
  end.

(** [tag.find_all(names)] *)
Definition find_all (names : list string) (n : node) : list node :=
  filter (named names) (descendants n).

(** [tag.find_all(names, recursive=False)] *)
Definition find_all_direct (names : list string) (n : node) : list node :=
  filter (named names) (children n).

(** [tag.find(name)] *)
Definition find_tag (name : string) (n : node) : option node :=
  hd_error (find_all [name] n).

(** The stripped, non-empty strings below a node, in document order. *)
Fixpoint stripped_strings (n : node) : list string :=
  match n with
  | Text s => if truthy (strip s) then [strip s] else []
  | Comment _ => []
  | Tag _ _ cs => flat_map stripped_strings cs
  end.

(** [tag.get_text(strip=True)] *)
Definition get_text (n : node) : string :=
  String.concat "" (stripped_strings n).

(** [tag.get(key, default)] *)
Fixpoint lookup_attr (attrs : list (string * string)) (key : string) : option string :=
  match attrs with
  | [] => None
  | (k, v) :: r => if String.eqb k key then Some v else lookup_attr r key
  end.

Definition get (n : node) (key default : string) : string :=
  match n with
  | Tag _ attrs _ =>
      match lookup_attr attrs key with Some v => v | None => default end
  | _ => default
  end.

(** [for t in soup(names): t.decompose()]: the tree without those tags. *)
Fixpoint decompose_all (names : list string) (n : node) : node :=
  match n with
  | Tag name attrs cs =>
      Tag name attrs
          (flat_map (fun c => if named names c then [] else [decompose_all names c]) cs)
  | _ => n
  end.

End Soup.

(* ===================================================================== *)
(** ** The document under construction (python-docx) *)
(* ===================================================================== *)

Module Docx.

Record run : Type := mkRun {
  run_text : string;
  run_bold : bool;
  run_italic : bool;
  run_underline : bool;
  run_color : option string;
  run_picture : option string;   (* the embedded image file, 3 inches wide *)
  run_break : bool
}.

Definition text_run (t : string) : run :=
  mkRun t false false false None None false.

Definition empty_run : run := text_run "".

Record paragraph : Type := mkPar {
  par_style : option string;
  par_alignment : option nat;
  par_runs : list run
}.

Definition empty_paragraph : paragraph := mkPar None None [].

(** [doc.add_paragraph(text)]: a run is added only for a non-empty text. *)
Definition text_paragraph (t : string) : paragraph :=
  mkPar None None (if PyStr.truthy t then [text_run t] else []).

(** A block of the document body. *)
Inductive block : Type :=
| Para (p : paragraph)
| TableB (cells : list (list string)).

(** The document is the list of its blocks; a paragraph or table object the
    program holds is its index in that list. *)
Definition document : Type := list block.

Definition is_para (b : block) : bool :=
  match b with Para _ => true | TableB _ => false end.

(** [doc.paragraphs] *)
Definition paragraphs (doc : document) : list paragraph :=
  flat_map (fun b => match b with Para p => [p] | TableB _ => [] end) doc.

(** The index of [doc.paragraphs[-1]]. *)
Fixpoint last_paragraph_from (i : nat) (doc : document) : option nat :=
  match doc with
  | [] => None
  | b :: r =>
      match last_paragraph_from (S i) r with
      | Some j => Some j
      | None => if is_para b then Some i else None
      end
  end.

Definition last_paragraph (doc : document) : option nat := last_paragraph_from 0 doc.

Definition on_para (f : paragraph -> paragraph) (b : block) : block :=
  match b with Para p => Para (f p) | TableB c => TableB c end.

Definition on_table (f : list (list string) -> list (list string)) (b : block) : block :=
  match b with Para p => Para p | TableB c => TableB (f c) end.

Definition push_run (r : run) (p : paragraph) : paragraph :=
  mkPar (par_style p) (par_alignment p) (par_runs p ++ [r]).

(** The run added last is the one the program still holds. *)
Definition on_last_run (f : run -> run) (p : paragraph) : paragraph :=
  mkPar (par_style p) (par_alignment p)
        (list_alter f (length (par_runs p) - 1) (par_runs p)).

Import St.

(** [doc.add_paragraph(...)], [doc.add_table(...)]: the new block goes last
    and its handle is returned. *)
Definition add_block (b : block) : M document nat :=
  fun doc => (Ok (length doc), doc ++ [b]).

(** [para.add_run(...)] *)
Definition add_run (para : nat) (r : run) : M document unit :=
  modify (list_alter (on_para (push_run r)) para).

(** An assignment to an attribute of the run added last to [para]. *)
Definition set_last_run (para : nat) (f : run -> run) : M document unit :=
  modify (list_alter (on_para (on_last_run f)) para).

(** [doc.add_table(rows, cols)]: every cell is blank. *)
Definition blank_grid (rows cols : nat) : list (list string) :=
  repeat (repeat EmptyString cols) rows.

(** [table.cell(i, j).text = v] *)
Definition set_cell (i j : nat) (v : string) (grid : list (list string))
  : list (list string) :=
  list_alter (list_alter (fun _ => v) j) i grid.

End Docx.

(* ===================================================================== *)
(** ** The file tree [os.walk] visits *)
(* ===================================================================== *)

Module Walk.
Import PyStr OsPath.

(** A directory: the names of its files and its sub-directories, in the
    order the system lists them. *)
Inductive dirtree : Type :=
| Dir (files : list string) (subdirs : list (string * dirtree)).

Definition dir_files (t : dirtree) : list string :=
  match t with Dir fs _ => fs end.
Definition dir_subdirs (t : dirtree) : list (string * dirtree) :=
  match t with Dir _ ds => ds end.

(** [os.walk(top)], top down, where the caller keeps in [dirs] only the names
    [keep] accepts before the walk goes on ([dirs[:] = [...]]): the triples
    [(root, dirs, files)] in the order they are produced. *)
Fixpoint walk (keep : string -> bool) (top : string) (t : dirtree)
  : list (string * list string * list string) :=
  match t with
  | Dir files subdirs =>
      (top, map fst subdirs, files)
        :: flat_map (fun d => if keep (fst d) then walk keep (join top (fst d)) (snd d)
                              else [])
                    subdirs
  end.

End Walk.

(* ===================================================================== *)
(** ** The environment *)
(* ===================================================================== *)

(** [errors='strict'] and [errors='ignore'] *)
Inductive errors_mode : Type := Strict | Ignore.

(** What the program asks of the operating system and of the libraries, over
    a state [W] of the file system. *)
Record Env (W : Type) : Type := mkEnv {
  (* os and os.path *)
  os_path_exists : W -> string -> bool;
  os_path_isdir : W -> string -> bool;
  os_path_getsize : W -> string -> outcome N;
  os_listdir : W -> string -> outcome (list string);
  os_tree : W -> string -> option Walk.dirtree;
  os_makedirs : string -> St.M W unit;
  os_path_relpath : string -> string -> string;
  (* open(path, 'rb').read() *)
  file_bytes : W -> string -> outcome (list Byte.byte);
  (* codecs: whether the name is a known encoding, and the decoded text
     ([None]: the bytes are rejected) *)
  codec_known : string -> bool;
  codec_decode : string -> errors_mode -> list Byte.byte -> option string;
  (* chardet.detect: the encoding (or None) and the confidence *)
  chardet_detect : list Byte.byte -> outcome (option string * float);
  (* BeautifulSoup(html_content, 'lxml') *)
  html_parse : string -> outcome Soup.node;
  (* python-docx: what may refuse its arguments or its input *)
  docx_add_heading : string -> nat -> outcome unit;
  docx_set_rgb : string -> outcome unit;
  docx_add_picture : W -> string -> outcome unit;
  docx_save : Docx.document -> string -> St.M W unit
}.

(* ===================================================================== *)
(** ** HtmlToWordConverter *)
(* ===================================================================== *)

Module Converter.
Import PyStr OsPath Soup Docx Walk.

(** The counters of a run: [total_files], [success_files], [failed_files]
    and [output_dir]. *)
Record converter : Type := mkConverter {
  total_files : nat;
  success_files : nat;
  failed_files : list string;
  output_dir : option string
}.

(** [__init__] *)
Definition init : converter := mkConverter 0 0 [] None.

Section WithEnv.

Context {W : Type} (E : Env W).

(** [raw.decode(encoding, errors)] and the decoding a text-mode file does:
    an unknown encoding is a [LookupError], rejected bytes a
    [UnicodeDecodeError]. *)
Definition decode (encoding : string) (errors : errors_mode) (raw : list Byte.byte)
  : outcome string :=
  if codec_known E encoding then
    match codec_decode E encoding errors raw with
    | Some s => Ok s
    | None => Raise UnicodeDecodeError
    end
  else Raise LookupError.

(** [with open(file_path, 'r', encoding=..., errors=...) as f: f.read()] *)
Definition open_text (w : W) (file_path encoding : string) (errors : errors_mode)
  : outcome string :=
  (raw <- file_bytes E w file_path ;;
   s <- decode encoding errors raw ;;
   Ok (universal_newlines s))%err.

(** *** detect_encoding *)

Definition confidence_threshold : float := 0.7%float.

Definition fallback_encodings : list string := ["utf-8"; "gbk"; "gb18030"; "big5"].

(** [for encoding in [...]: try: raw_data.decode(encoding); return encoding
    except: continue] *)
Fixpoint first_decodable (raw_data : list Byte.byte) (encodings : list string)
  : option string :=
  match encodings with
  | [] => None
  | encoding :: rest =>
      match decode encoding Strict raw_data with
      | Ok _ => Some encoding
      | Raise _ => first_decodable raw_data rest
      end
  end.

Definition sample_size : nat := N.to_nat 10000.

Definition detect_encoding (w : W) (file_path : string) : outcome string :=
  Err.try_except
    (raw <- file_bytes E w file_path ;;
     let raw_data := firstn sample_size raw in
     result <- chardet_detect E raw_data ;;
     accepted <-
       (if PrimFloat.ltb confidence_threshold (snd result) then
          match fst result with
          | Some name =>
              let encoding := lower name in
              if String.eqb encoding "gb2312" then Ok (Some "gb18030")
              else Ok (Some encoding)
          | None => Raise AttributeError
          end
        else Ok None) ;;
     match accepted with
     | Some encoding => Ok encoding
     | None =>
         match first_decodable raw_data fallback_encodings with
         | Some encoding => Ok encoding
         | None => Ok "utf-8"
         end
     end)%err
    (fun _ => Ok "utf-8").

(** *** read_html_file *)

Definition legacy_encodings : list string :=
  ["gbk"; "gb18030"; "big5"; "utf-16"; "latin-1"].

(** [for enc in encodings: try: ... return f.read()  except: continue] *)
Fixpoint first_readable (w : W) (file_path : string) (encodings : list string)
  : option string :=
  match encodings with
  | [] => None
  | enc :: rest =>
      match open_text w file_path enc Ignore with
      | Ok content => Some content
      | Raise _ => first_readable w file_path rest
      end
  end.

Definition read_html_file (w : W) (file_path : string) : outcome string :=
  Err.try_except
    (first <-
       Err.try_except_only is_UnicodeDecodeError
         (content <- open_text w file_path "utf-8" Strict ;;
          Ok (Some (strip_bom content)))
         (fun _ => Ok None) ;;
     match first with
     | Some content => Ok content
     | None =>
         encoding <- detect_encoding w file_path ;;
         second <-
           Err.try_except
             (content <- open_text w file_path encoding Ignore ;;
              Ok (Some (strip_bom content)))
             (fun _ => Ok None) ;;
         match second with
         | Some content => Ok content
         | None =>
             match first_readable w file_path legacy_encodings with
             | Some content => Ok content
             | None =>
                 raw <- file_bytes E w file_path ;;
                 decode "utf-8" Ignore raw
             end
         end
     end)%err
    (fun _ => Ok "").

(** *** find_associated_files_folder *)

Definition possible_names (html_name : string) : list string :=
  [html_name +:+ "_files"; html_name +:+ ".files"; html_name;
   "files"; "images"; "image"; "img"].

Definition similar_name (html_name item : string) : bool :=
  contains html_name (lower item) &&
  (contains "file" (lower item) || contains "image" (lower item)).

Definition find_associated_files_folder (w : W) (html_path : string)
  : outcome (option string) :=
  let html_dir := dirname html_path in
  let html_name := fst (splitext (basename html_path)) in
  match find (fun folder_path => os_path_exists E w folder_path && os_path_isdir E w folder_path)
             (map (join html_dir) (possible_names html_name)) with
  | Some folder_path => Ok (Some folder_path)
  | None =>
      (items <- os_listdir E w html_dir ;;
       Ok (option_map (join html_dir)
             (find (fun item => os_path_isdir E w (join html_dir item) &&
                                similar_name html_name item)
                   items)))%err
  end.

(** *** _insert_image *)

Import St.
Local Open Scope st_scope.

(** The paths tried inside the asset folder: the two direct ones, then every
    file of the folder's tree with the image's name, compared as it is or in
    lower case. *)
Definition image_candidates (w : W) (files_folder clean_src img_name : string)
  : list string :=
  [join files_folder img_name; join files_folder clean_src] ++
  match os_tree E w files_folder with
  | Some t =>
      flat_map (fun entry =>
                  map (join (fst (fst entry)))
                      (filter (fun file => String.eqb file img_name ||
                                           String.eqb (lower file) (lower img_name))
                              (snd entry)))
               (walk (fun _ => true) files_folder t)
  | None => []
  end.

(** The search for the image file: the asset folder first, then the path
    relative to the HTML file. *)
Definition find_image (w : W) (html_path : string) (files_folder : option string)
           (clean_src img_name : string) : option string :=
  let html_dir := dirname html_path in
  let in_folder :=
    match files_folder with
    | Some folder =>
        if truthy folder && os_path_exists E w folder then
          find (os_path_exists E w) (image_candidates w folder clean_src img_name)
        else None
    | None => None
    end in
  let relative :=
    let img_path := join html_dir clean_src in
    if os_path_exists E w img_path then Some img_path else None in
  match in_folder with
  | Some img_path => if truthy img_path then Some img_path else relative
  | None => relative
  end.

Definition not_found_text (alt_text : string) : string :=
  "[图片未找到: " +:+ alt_text +:+ "]".

Definition failed_text (alt_text : string) : string :=
  "[图片: " +:+ alt_text +:+ "]".

(** [paragraph.add_run(text)] when a paragraph was given, else
    [doc.add_paragraph(text)]. *)
Definition add_text (paragraph : option nat) (text : string) : M document unit :=
  match paragraph with
  | Some para => add_run para (text_run text)
  | None => _ <- add_block (Para (text_paragraph text)) ;; ret tt
  end.

Definition with_picture (img_path : string) (r : run) : run :=
  mkRun (run_text r) (run_bold r) (run_italic r) (run_underline r) (run_color r)
        (Some img_path) (run_break r).

(** [run = ....add_run(); run.add_picture(img_path, width=Inches(3))] in the
    given paragraph, or in a new centred one. *)
Definition add_picture (w : W) (paragraph : option nat) (img_path : string)
  : M document unit :=
  para <- match paragraph with
          | Some para => ret para
          | None => add_block (Para (mkPar None (Some 1) []))
          end ;;
  add_run para empty_run ;;;
  lift (docx_add_picture E w img_path) ;;;
  set_last_run para (with_picture img_path).

(** [src.split('?')[0].split('#')[0]] *)
Definition clean (src : string) : string :=
  split_first "#" (split_first "?" src).

Definition _insert_image (w : W) (img_element : node) (html_path : string)
           (files_folder : option string) (paragraph : option nat) : M document unit :=
  try_except
    (let src := Soup.get img_element "src" "" in
     if negb (truthy src) || startswith src "data:" then ret tt
     else
       let clean_src := clean src in
       let img_name := basename clean_src in
       if negb (truthy img_name) then ret tt
       else
         let alt_text := Soup.get img_element "alt" img_name in
         match find_image w html_path files_folder clean_src img_name with
         | Some img_path =>
             if truthy img_path && os_path_exists E w img_path then
               try_except (add_picture w paragraph img_path)
                          (fun _ => add_text paragraph (failed_text alt_text))
             else add_text paragraph (not_found_text alt_text)
         | None => add_text paragraph (not_found_text alt_text)
         end)
    (fun _ => ret tt).

(** *** convert_html_to_word: the element mapper *)

Definition with_bold (r : run) : run :=
  mkRun (run_text r) true (run_italic r) (run_underline r) (run_color r)
        (run_picture r) (run_break r).
Definition with_italic (r : run) : run :=
  mkRun (run_text r) (run_bold r) true (run_underline r) (run_color r)
        (run_picture r) (run_break r).
Definition with_underline (r : run) : run :=
  mkRun (run_text r) (run_bold r) (run_italic r) true (run_color r)
        (run_picture r) (run_break r).
Definition with_color (c : string) (r : run) : run :=
  mkRun (run_text r) (run_bold r) (run_italic r) (run_underline r) (Some c)
        (run_picture r) (run_break r).
Definition with_break (r : run) : run :=
  mkRun (run_text r) (run_bold r) (run_italic r) (run_underline r) (run_color r)
        (run_picture r) true.

(** One turn of [for child in element.children] inside a paragraph.  The
    local variable [text] is threaded: a text child assigns to it. *)
Definition p_child (w : W) (html_path : string) (files_folder : option string)
           (para : nat) (child : node) (text : string) : M document string :=
  match child with
  | Tag name _ _ =>
      if String.eqb name "img" then
        _insert_image w child html_path files_folder (Some para) ;;; ret text
      else if mem name ["b"; "strong"] then
        add_run para (text_run (get_text child)) ;;;
        set_last_run para with_bold ;;; ret text
      else if mem name ["i"; "em"] then
        add_run para (text_run (get_text child)) ;;;
        set_last_run para with_italic ;;; ret text
      else if String.eqb name "u" then
        add_run para (text_run (get_text child)) ;;;
        set_last_run para with_underline ;;; ret text
      else if String.eqb name "a" then
        add_run para (text_run (get_text child)) ;;;
        lift (docx_set_rgb E "0000FF") ;;;
        set_last_run para (with_color "0000FF") ;;;
        set_last_run para with_underline ;;; ret text
      else ret text
  | Text s | Comment s =>
      let text := strip s in
      when (truthy text) (add_run para (text_run text)) ;;; ret text
  end.

Fixpoint p_children (w : W) (html_path : string) (files_folder : option string)
         (para : nat) (children : list node) (text : string) : M document string :=
  match children with
  | [] => ret text
  | child :: rest =>
      text <- p_child w html_path files_folder para child text ;;
      p_children w html_path files_folder para rest text
  end.

(** The [p] branch: the loop over the children has no [break], so its
    [else] clause runs whenever the loop ends. *)
Definition convert_p (w : W) (html_path : string) (files_folder : option string)
           (element : node) : M document unit :=
  let text := get_text element in
  when (truthy text)
    (para <- add_block (Para empty_paragraph) ;;
     text <- p_children w html_path files_folder para (children element) text ;;
     add_run para (text_run text)).

(** [int(element.name[1])] *)
Definition int_of_second_char (name : string) : outcome nat :=
  match name with
  | String _ (String d _) =>
      let n := nat_of_ascii d in
      if (48 <=? n) && (n <=? 57) then Ok (n - 48) else Raise ValueError
  | _ => Raise IndexError
  end.

Definition heading_style (level : nat) : string :=
  match level with
  | 0 => "Title"
  | _ => "Heading " +:+ digit level
  end.

Definition convert_heading (element : node) (name : string) : M document unit :=
  level <- lift (int_of_second_char name) ;;
  let text := get_text element in
  when (truthy text)
    (try_except
       (lift (docx_add_heading E text (Nat.min level 6)) ;;;
        _ <- add_block (Para (mkPar (Some (heading_style (Nat.min level 6))) None
                                    [text_run text])) ;;
        ret tt)
       (fun _ =>
          _ <- add_block (Para (text_paragraph ("标题" +:+ digit level +:+ ": " +:+ text))) ;;
          ret tt)).

(** The [ul] and [ol] branches: one styled paragraph per direct [li] with
    text. *)
Definition convert_list (style : string) (element : node) : M document unit :=
  for_each (find_all_direct ["li"] element)
    (fun li =>
       let text := get_text li in
       when (truthy text)
         (para <- add_block (Para (mkPar (Some style) None [])) ;;
          add_run para (text_run text))).

(** [for j, cell in enumerate(cells): if j < max_cols: table.cell(i, j).text = ...] *)
Fixpoint fill_cells (max_cols i j : nat) (cells : list node) (grid : list (list string))
  : list (list string) :=
  match cells with
  | [] => grid
  | cell :: rest =>
      fill_cells max_cols i (S j) rest
                 (if j <? max_cols then set_cell i j (get_text cell) grid else grid)
  end.

(** [for i, row in enumerate(rows): cells = row.find_all(['td', 'th']); ...] *)
Fixpoint fill_rows (max_cols i : nat) (rows : list node) (grid : list (list string))
  : list (list string) :=
  match rows with
  | [] => grid
  | row :: rest =>
      fill_rows max_cols (S i) rest
                (fill_cells max_cols i 0 (find_all ["td"; "th"] row) grid)
  end.

Definition cell_count (row : node) : nat := length (find_all ["td"; "th"] row).

Definition convert_table (element : node) : M document unit :=
  let rows := find_all ["tr"] element in
  when (negb (length rows =? 0))
    (let max_cols := list_max (map cell_count rows) in
     when (0 <? max_cols)
       (table <- add_block (TableB (blank_grid (length rows) max_cols)) ;;
        modify (list_alter (on_table (fill_rows max_cols 0 rows)) table))).

(** The [br] branch: a break in the last paragraph, if there is one. *)
Definition convert_br : M document unit :=
  doc <- get ;;
  match last_paragraph doc with
  | Some para => add_run para empty_run ;;; set_last_run para with_break
  | None => ret tt
  end.

Definition block_tags : list string :=
  ["h1"; "h2"; "h3"; "h4"; "h5"; "h6"; "p"; "div"; "img"; "ul"; "ol"; "table"; "br"].

(** The body of [for element in body.find_all([...])]. *)
Definition convert_element (w : W) (html_path : string) (files_folder : option string)
           (element : node) : M document unit :=
  match element with
  | Tag name _ _ =>
      if startswith name "h" then convert_heading element name
      else if String.eqb name "p" then convert_p w html_path files_folder element
      else if String.eqb name "div" then
        let text := get_text element in
        when (truthy text) (_ <- add_block (Para (text_paragraph text)) ;; ret tt)
      else if String.eqb name "img" then
        _insert_image w element html_path files_folder None
      else if String.eqb name "ul" then convert_list "List Bullet" element
      else if String.eqb name "ol" then convert_list "List Number" element
      else if String.eqb name "table" then convert_table element
      else if String.eqb name "br" then convert_br
      else ret tt
  | _ => ret tt
  end.

Definition convert_elements (w : W) (html_path : string) (files_folder : option string)
           (elements : list node) : M document unit :=
  for_each elements (convert_element w html_path files_folder).

(** When the document has no paragraph: up to 20 lines of the page's text,
    each cut to 500 characters. *)
Definition dump_text (body : node) : M document unit :=
  doc <- get ;;
  when (length (paragraphs doc) =? 0)
    (let body_text := get_text body in
     when (truthy body_text)
       (for_each (firstn 20 (split LF body_text))
          (fun line =>
             let line := strip line in
             when (truthy line)
               (_ <- add_block (Para (text_paragraph (take_chars 500 line))) ;;
                ret tt)))).

(** The first part of [convert_html_to_word]: reading, parsing and mapping.
    [None] is the early [return False] on an empty page.  [Document()] is
    the empty list of blocks; setting the fonts of the styles leaves the body
    as it is. *)
Definition build_document (w : W) (html_path : string) (files_folder : option string)
  : outcome (option document) :=
  (html_content <- read_html_file w html_path ;;
   if negb (truthy html_content) || negb (truthy (strip html_content)) then Ok None
   else
     soup <- html_parse E html_content ;;
     let soup := decompose_all ["script"; "style"] soup in
     let body := match find_tag "body" soup with Some b => b | None => soup end in
     match (convert_elements w html_path files_folder (find_all block_tags body) ;;;
            dump_text body)%st [] with
     | (Ok _, doc) => Ok (Some doc)
     | (Raise e, _) => Raise e
     end)%err.

Definition min_size : N := 1024%N.

(** The second part: saving and checking the saved file. *)
Definition save_and_verify (doc : document) (docx_path : string) : M W bool :=
  let output_dir := dirname docx_path in
  w <- get ;;
  when (negb (os_path_exists E w output_dir)) (os_makedirs E output_dir) ;;;
  docx_save E doc docx_path ;;;
  w <- get ;;
  if os_path_exists E w docx_path then
    size <- lift (os_path_getsize E w docx_path) ;;
    ret (N.ltb min_size size)
  else ret false.

Definition convert_html_to_word (html_path docx_path : string)
           (files_folder : option string) : M W bool :=
  try_except
    (w <- get ;;
     built <- lift (build_document w html_path files_folder) ;;
     match built with
     | Some doc => save_and_verify doc docx_path
     | None => ret false
     end)
    (fun _ => ret false).

(** *** process_directory *)

Definition excluded_dirs : list string := ["word"; "__pycache__"; ".git"; "logs"].

(** The two filters applied to [dirs] before the walk descends. *)
Definition keep_dir (d : string) : bool :=
  negb (endswith d "_files") && negb (mem d excluded_dirs).

(** [file.lower().endswith(('.html', '.htm'))] *)
Definition is_html (file : string) : bool :=
  endswith (lower file) ".html" || endswith (lower file) ".htm".

Definition count_file (c : converter) : converter :=
  mkConverter (total_files c + 1) (success_files c) (failed_files c) (output_dir c).
Definition count_success (c : converter) : converter :=
  mkConverter (total_files c) (success_files c + 1) (failed_files c) (output_dir c).
Definition record_failure (html_path : string) (c : converter) : converter :=
  mkConverter (total_files c) (success_files c) (failed_files c ++ [html_path]) (output_dir c).
Definition set_output_dir (d : string) (c : converter) : converter :=
  mkConverter (total_files c) (success_files c) (failed_files c) (Some d).

(** The body of the inner loop for a file with an HTML name. *)
Definition process_file (current_dir out_dir root file : string) : M (W * converter) unit :=
  on_snd (modify count_file) ;;;
  let html_path := join root file in
  let rel_path := os_path_relpath E root current_dir in
  let rel_path := if String.eqb rel_path "." then "" else rel_path in
  let output_subdir := join out_dir rel_path in
  st <- get ;;
  when (negb (os_path_exists E (fst st) output_subdir))
       (on_fst (os_makedirs E output_subdir)) ;;;
  let docx_name := fst (splitext file) +:+ ".docx" in
  let docx_path := join output_subdir docx_name in
  st <- get ;;
  files_folder <- lift (find_associated_files_folder (fst st) html_path) ;;
  converted <- on_fst (convert_html_to_word html_path docx_path files_folder) ;;
  if converted then on_snd (modify count_success)
  else on_snd (modify (record_failure html_path)).

(** [for file in files: if file.lower().endswith(...): ...] *)
Definition process_files (current_dir out_dir root : string) (files : list string)
  : M (W * converter) unit :=
  for_each files
    (fun file => when (is_html file) (process_file current_dir out_dir root file)).

(** [process_directory], from the working directory [current_dir]
    ([os.getcwd()]).  The walk follows the tree as it stands when the scan
    starts: what the conversions write goes under [word], outside the walk. *)
Definition process_directory (current_dir : string)
  : M (W * converter) (nat * nat * option string) :=
  let parent_dir := dirname current_dir in
  let out_dir := join parent_dir "word" in
  on_snd (modify (set_output_dir out_dir)) ;;;
  st <- get ;;
  when (negb (os_path_exists E (fst st) out_dir)) (on_fst (os_makedirs E out_dir)) ;;;
  st <- get ;;
  for_each (match os_tree E (fst st) current_dir with
            | Some t => walk keep_dir current_dir t
            | None => []
            end)
           (fun entry => process_files current_dir out_dir (fst (fst entry)) (snd entry)) ;;;
  st <- get ;;
  ret (total_files (snd st), success_files (snd st), output_dir (snd st)).

End WithEnv.
End Converter.

(* ===================================================================== *)
(** ** A small concrete environment *)
(* ===================================================================== *)

(** Used to run the converter on explicit pages and folders.  The state of
    the file system is the list of the files saved so far with their sizes;
    what was there before the run is given by a [setup]. *)
Module Toy.
Import PyStr Soup Docx Walk.

Record setup : Type := mkSetup {
  dirs : list string;                          (* the directories that exist *)
  files : list (string * string);              (* the files and their bytes *)
  listing : list (string * list string);       (* os.listdir *)
  trees : list (string * dirtree);             (* the trees under a path *)
  unwritable : list string;                    (* where makedirs fails *)
  page : string -> outcome node;               (* the parser *)
  detected : outcome (option string * float);  (* chardet's answer *)
  known : list string;                         (* the codecs *)
  link_colour : outcome unit;                  (* font.color.rgb = '0000FF' *)
  broken_images : list string;                 (* files add_picture rejects *)
  saved_size : document -> outcome N           (* the size doc.save writes *)
}.

Definition world : Type := list (string * N).

Fixpoint assoc {A} (k : string) (l : list (string * A)) : option A :=
  match l with
  | [] => None
  | (k', v) :: r => if String.eqb k k' then Some v else assoc k r
  end.

Definition is_ascii_byte (b : Byte.byte) : bool := (Byte.to_nat b <? 128)%nat.

(** The codecs of the toy: strict decoding accepts ASCII bytes only, lenient
    decoding drops the others. *)
Definition toy_decode (encoding : string) (errors : errors_mode) (raw : list Byte.byte)
  : option string :=
  match errors with
  | Strict => if forallb is_ascii_byte raw then Some (string_of_list_byte raw) else None
  | Ignore => Some (string_of_list_byte (filter is_ascii_byte raw))
  end.

Definition env (s : setup) : Env world :=
  {| os_path_exists := fun w p =>
       mem p (dirs s) || mem p (map fst (files s)) || mem p (map fst w);
     os_path_isdir := fun w p => mem p (dirs s);
     os_path_getsize := fun w p =>
       match assoc p w with
       | Some n => Ok n
       | None => match assoc p (files s) with
                 | Some c => Ok (N.of_nat (String.length c))
                 | None => Raise OSError
                 end
       end;
     os_listdir := fun w p =>
       match assoc p (listing s) with Some l => Ok l | None => Raise OSError end;
     os_tree := fun w p => assoc p (trees s);
     os_makedirs := fun p w =>
       if mem p (unwritable s) then (Raise OSError, w) else (Ok tt, w);
     os_path_relpath := fun p start =>
       if String.eqb p start then "."
       else from (String.length start + 1) p;
     file_bytes := fun w p =>
       match assoc p (files s) with
       | Some c => Ok (list_byte_of_string c)
       | None => Raise OSError
       end;
     codec_known := fun encoding => mem encoding (known s);
     codec_decode := toy_decode;
     chardet_detect := fun _ => detected s;
     html_parse := page s;
     docx_add_heading := fun _ _ => Ok tt;
     docx_set_rgb := fun _ => link_colour s;
     docx_add_picture := fun w p =>
       if mem p (broken_images s) then Raise (OtherException "unrecognized image") else Ok tt;
     docx_save := fun doc p w =>
       match saved_size s doc with
       | Ok n => (Ok tt, (p, n) :: w)
       | Raise e => (Raise e, w)
       end |}.

(** A setup with nothing in it: no file, one codec, a parser that returns an
    empty page, documents saved at 36000 bytes. *)
Definition bare : setup :=
  {| dirs := []; files := []; listing := []; trees := []; unwritable := [];
     page := fun _ => Ok (Tag "[document]" [] []);
     detected := Ok (None, 0%float);
     known := ["utf-8"];
     link_colour := Ok tt;
     broken_images := [];
     saved_size := fun _ => Ok 36000%N |}.

End Toy.

(* ===================================================================== *)
(** ** What the specification speaks of *)
(* ===================================================================== *)

(** The notions the specification uses to describe the converter, written
    from its words; the properties below compare them with the code. *)
Module Spec.
Import PyStr OsPath Soup Docx Walk Converter.




(** The invariant of the counters. *)
Definition counted (c : converter) : Prop :=
  total_files c = success_files c + length (failed_files c).

(** What one file does to the counters: it is counted, and then either
    counted as a success or appended to the failure list. *)
Definition recorded (html_path : string) (c c' : converter) : Prop :=
  total_files c' = total_files c + 1 /\
  output_dir c' = output_dir c /\
  ((success_files c' = success_files c + 1 /\ failed_files c' = failed_files c) \/
   (success_files c' = success_files c /\ failed_files c' = failed_files c ++ [html_path])).


(** The files with an HTML name anywhere in a folder. *)
Fixpoint html_files (t : dirtree) : nat :=
  match t with
  | Dir files subdirs =>
      length (filter is_html files)
      + list_sum (map (fun d => html_files (snd d)) subdirs)
  end.

(** The files with an HTML name in a folder, leaving out everything beneath
    a directory whose name ends in [_files] or is one of [word],
    [__pycache__], [.git], [logs]. *)
Fixpoint html_files_in_scope (t : dirtree) : nat :=
  match t with
  | Dir files subdirs =>
      length (filter is_html files)
      + list_sum (map (fun d => if endswith (fst d) "_files" || mem (fst d) excluded_dirs
                                then 0 else html_files_in_scope (snd d))
                      subdirs)
  end.




Section WithEnv.
Context {W : Type} (E : Env W).



(** The folder a page's document goes to. *)
Definition output_subdir (current_dir out_dir root : string) : string :=
  join out_dir (if String.eqb (os_path_relpath E root current_dir) "." then ""
                else os_path_relpath E root current_dir).

(** The two steps that precede the conversion of a page cannot fail: its
    output folder can be created and the folder it lies in can be listed. *)
Definition file_prepared (current_dir out_dir root file : string) : Prop :=
  (forall w, fst (os_makedirs E (output_subdir current_dir out_dir root) w) = Ok tt) /\
  (forall w, returns (os_listdir E w (dirname (join root file))) = true).

Definition files_prepared (current_dir out_dir root : string) (files : list string) : Prop :=
  forall file, In file files -> is_html file = true ->
               file_prepared current_dir out_dir root file.

(** The same for a whole run over the tree [t] of the working directory. *)
Definition run_prepared (current_dir : string) (t : dirtree) : Prop :=
  let out_dir := join (dirname current_dir) "word" in
  (forall w, fst (os_makedirs E out_dir w) = Ok tt) /\
  (forall entry, In entry (walk keep_dir current_dir t) ->
                 files_prepared current_dir out_dir (fst (fst entry)) (snd entry)).


(** The saved document exists and is larger than the threshold of 1024
    bytes. *)
Definition saved_and_large (w : W) (docx_path : string) : bool :=
  os_path_exists E w docx_path &&
  match os_path_getsize E w docx_path with
  | Ok size => N.ltb 1024 size
  | Raise _ => false
  end.



End WithEnv.

End Spec.

(* ===================================================================== *)
(** ** Two folders to run the converter on *)
(* ===================================================================== *)

Module Scenario.
Import PyStr OsPath Soup Docx Walk Converter Toy.

(** An image whose file is nowhere, one whose file is there but is no
    image, and one given inline. *)
Definition logo_attrs : list (string * string) :=
  [("src", "pics/logo.png?v=1"); ("alt", "Logo")].
Definition logo_img : node := Tag "img" logo_attrs [].
Definition broken_attrs : list (string * string) := [("src", "broken.png")].
Definition broken_img : node := Tag "img" broken_attrs [].
Definition inline_img : node := Tag "img" [("src", "data:image/png;base64,AAAA")] [].

(** A paragraph with a text and a bold part. *)
Definition hello_p : node := Tag "p" [] [Text "Hello "; Tag "b" [] [Text "world"]].

(** A table with a row of two cells and a row of one. *)
Definition wide_row : node := Tag "tr" [] [Tag "td" [] [Text "a"]; Tag "th" [] [Text " b "]].
Definition short_row : node := Tag "tr" [] [Tag "td" [] [Text "c"]].
Definition uneven_table : node := Tag "table" [] [wide_row; short_row].

Definition page_body : node :=
  Tag "body" []
      [Tag "h1" [] [Text "Title"]; hello_p; logo_img; broken_img; inline_img; uneven_table].

(** The working directory [/site]: two pages, a text file, and the asset
    folder of the first page, which holds a page of its own. *)
Definition site_tree : dirtree :=
  Dir ["page.html"; "empty.HTM"; "readme.txt"]
      [("page_files", Dir ["broken.png"; "frame.html"] [])].

Definition scene (detected : outcome (option string * float)) (size : outcome N) : setup :=
  {| dirs := ["/site"; "/site/page_files"; "/word"];
     files := [("/site/page.html", "<html>page</html>");
               ("/site/empty.HTM", "   ");
               ("/site/legacy.html", "caf" +:+ String (ascii_of_nat 233) "!");
               ("/site/page_files/broken.png", "not an image")];
     listing := [("/site", ["page.html"; "empty.HTM"; "readme.txt"; "page_files"])];
     trees := [("/site", site_tree);
               ("/site/page_files", Dir ["broken.png"; "frame.html"] [])];
     unwritable := [];
     page := fun _ => Ok (Tag "[document]" [] [Tag "html" [] [page_body]]);
     detected := detected;
     known := ["utf-8"; "latin-1"];
     link_colour := Ok tt;
     broken_images := ["/site/page_files/broken.png"];
     saved_size := fun _ => size |}.

(** The detector is confident and documents are saved at 36000 bytes. *)
Definition site : setup := scene (Ok (Some "GB2312", 0.99%float)) (Ok 36000%N).


(** Documents are saved at exactly 1024 bytes. *)
Definition tiny : setup := scene (Ok (Some "GB2312", 0.99%float)) (Ok 1024%N).


(** The document the first page becomes. *)
Definition page_document : document :=
  [Para (mkPar (Some "Heading 1") None [text_run "Title"]);
   Para (mkPar None None [text_run "Hello"; with_bold (text_run "world"); text_run "Hello"]);
   Para (mkPar None None [text_run "[图片未找到: Logo]"]);
   Para (mkPar None (Some 1) [empty_run]);
   Para (mkPar None None [text_run "[图片: broken.png]"]);
   TableB [["a"; "b"]; ["c"; ""]]].

(** The folder [/docs]: a page [Report.html] beside a folder
    [Report-images]. *)
Definition reports : setup :=
  {| dirs := ["/docs"; "/docs/Report-images"];
     files := [("/docs/Report.html", "<html>report</html>")];
     listing := [("/docs", ["Report.html"; "Report-images"])];
     trees := [("/docs", Dir ["Report.html"] [("Report-images", Dir [] [])])];
     unwritable := [];
     page := fun _ => Ok (Tag "[document]" [] []);
     detected := Ok (None, 0%float);
     known := ["utf-8"];
     link_colour := Ok tt;
     broken_images := [];
     saved_size := fun _ => Ok 36000%N |}.

End Scenario.

(* ===================================================================== *)
(** ** check_and_install_dependencies *)
(* ===================================================================== *)

Module Dependencies.
Import St.

(** What [__import__(name)] does: it returns, raises [ImportError], or
    raises something else. *)
Inductive import_result : Type :=
| Imported
| NotInstalled
| Broken (e : exn).

(** The interpreter's modules and [pip]: [pip_install] is
    [subprocess.check_call([sys.executable, "-m", "pip", "install", dep,
    "--quiet"])]. *)
Record DepEnv : Type := mkDepEnv {
  import_module : string -> import_result;
  pip_install : string -> outcome unit
}.

(** The pairs [(pip_name, import_name)]. *)
Definition dependencies : list (string * string) :=
  [("python-docx", "docx"); ("beautifulsoup4", "bs4"); ("chardet", "chardet");
   ("lxml", "lxml")].

Section WithDeps.
Context (D : DepEnv).

(** The first loop: the pip names of the modules that are not installed.
    Only [ImportError] is caught. *)
Fixpoint scan (deps : list (string * string)) (missing_deps : list string)
  : outcome (list string) :=
  match deps with
  | [] => Ok missing_deps
  | (pip_name, import_name) :: rest =>
      match import_module D import_name with
      | Imported => scan rest missing_deps
      | NotInstalled => scan rest (missing_deps ++ [pip_name])
      | Broken e => Raise e
      end
  end.

(** One call of pip; the state is the list of the packages pip was run
    for. *)
Definition run_pip (dep : string) : M (list string) unit :=
  fun ran => (pip_install D dep, ran ++ [dep]).

Definition check_and_install_dependencies : M (list string) bool :=
  (missing_deps <- lift (scan dependencies []) ;;
   match missing_deps with
   | [] => ret true
   | _ :: _ =>
       try_except (for_each missing_deps run_pip ;;; ret true)
                  (fun _ => ret false)
   end)%st.

End WithDeps.
End Dependencies.

(* ===================================================================== *)
(** ** Further notions *)
(* ===================================================================== *)

Module Notions.
Import PyStr OsPath Soup Docx Walk Converter Dependencies.


(** The image stands in the document: as a run at the end of the paragraph
    being filled, or in a centred paragraph of its own at the end. *)
Definition with_image (paragraph : option nat) (img_path : string) (doc : document)
  : document :=
  match paragraph with
  | Some para => list_alter (on_para (push_run (with_picture img_path empty_run))) para doc
  | None => doc ++ [Para (mkPar None (Some 1) [with_picture img_path empty_run])]
  end.




(** The pages a walk meets: the paths of the files with an HTML name. *)
Definition discovered (entries : list (string * list string * list string))
  : list string :=
  flat_map (fun entry => map (join (fst (fst entry))) (filter is_html (snd entry)))
           entries.

(** The counters account for every file but one. *)
Definition one_pending (c : converter) : Prop :=
  total_files c = success_files c + length (failed_files c) + 1.

(** What a part of a run leaves in the counters, from counters that were
    in order: the failure list grew by pages of [pages] only, and the
    counters are in order again, or one file is pending and the run was cut
    short. *)
Definition accounted (pages : list string) (c : converter) (o : outcome unit)
           (c' : converter) : Prop :=
  (exists l, failed_files c' = failed_files c ++ l /\ incl l pages) /\
  output_dir c' = output_dir c /\
  (Spec.counted c -> match o with
                | Ok _ => Spec.counted c'
                | Raise _ => one_pending c'
                end).

(** The pip names of the modules that are not installed. *)
Definition missing (D : DepEnv) : list string :=
  map fst (filter (fun d => match import_module D (snd d) with
                            | NotInstalled => true
                            | _ => false
                            end)
                  dependencies).

(** No module fails to import for another reason than its absence. *)
Definition no_broken_module (D : DepEnv) : Prop :=
  forall d e, In d dependencies -> import_module D (snd d) <> Broken e.


(** A paragraph with text that has a link among its direct children. *)
Definition paragraph_with_link (element : node) : bool :=
  named ["p"] element && truthy (get_text element) &&
  existsb (named ["a"]) (children element).

End Notions.

(* ===================================================================== *)
(** ** A third folder, and two interpreters *)
(* ===================================================================== *)

Module Album.
Import PyStr OsPath Soup Docx Walk Converter Toy Dependencies.

(** An image whose file lies deeper in the asset folder, under a name that
    differs by its letter case. *)
Definition photo_attrs : list (string * string) := [("src", "img/photo.jpg")].
Definition photo_img : node := Tag "img" photo_attrs [].

Definition trip_title : node := Tag "h2" [] [Text "Trip"].

(** A paragraph with a link directly in it. *)
Definition map_p : node := Tag "p" [] [Text "See the "; Tag "a" [("href", "map.html")] [Text "map"]].


(** A list with an empty item and an item that holds a list. *)
Definition stops : node :=
  Tag "ul" []
      [Tag "li" [] [Text "one"];
       Tag "li" [] [Text "   "];
       Tag "li" [] [Text "two"; Tag "ul" [] [Tag "li" [] [Text "deep"]]]].

Definition trip_body : node :=
  Tag "body" [] [trip_title; map_p; photo_img; stops; Tag "br" [] []].

Definition trip_files_tree : dirtree :=
  Dir ["notes.txt"] [("img", Dir ["Photo.JPG"] [])].

(** The working directory [/album], where the colour of links is accepted
    or not. *)
Definition album (colour : outcome unit) : setup :=
  {| dirs := ["/album"; "/album/trip_files"; "/album/trip_files/img"; "/word"];
     files := [("/album/trip.html", "<html>trip</html>");
               ("/album/trip_files/img/Photo.JPG", "jpeg")];
     listing := [("/album", ["trip.html"; "trip_files"])];
     trees := [("/album", Dir ["trip.html"] [("trip_files", trip_files_tree)]);
               ("/album/trip_files", trip_files_tree)];
     unwritable := [];
     page := fun _ => Ok (Tag "[document]" [] [Tag "html" [] [trip_body]]);
     detected := Ok (None, 0.99%float);
     known := ["utf-8"];
     link_colour := colour;
     broken_images := [];
     saved_size := fun _ => Ok 36000%N |}.

Definition album_lenient : setup := album (Ok tt).
Definition album_strict : setup := album (Raise ValueError).

(** The same folder when the output folder [/word/] cannot be created. *)
Definition album_locked : setup :=
  {| dirs := dirs album_lenient; files := files album_lenient;
     listing := listing album_lenient; trees := trees album_lenient;
     unwritable := ["/word/"];
     page := page album_lenient; detected := detected album_lenient;
     known := known album_lenient; link_colour := link_colour album_lenient;
     broken_images := broken_images album_lenient;
     saved_size := saved_size album_lenient |}.


(** An interpreter without [bs4] and [chardet], where pip installs the
    first and fails on the second. *)
Definition half_installed : DepEnv :=
  {| import_module := fun name =>
       if PyStr.mem name ["bs4"; "chardet"] then NotInstalled else Imported;
     pip_install := fun dep =>
       if String.eqb dep "chardet" then Raise (OtherException "CalledProcessError")
       else Ok tt |}.

(** An interpreter whose [lxml] is broken. *)
Definition broken_lxml : DepEnv :=
  {| import_module := fun name =>
       if String.eqb name "lxml" then Broken (OtherException "OSError: libxml2")
       else if String.eqb name "docx" then NotInstalled else Imported;
     pip_install := fun _ => Ok tt |}.

End Album.

(* ===================================================================== *)
(** ** Proof steps for sequences of calls *)
(* ===================================================================== *)

Module Steps.

(** A case analysis on the first call of a sequence. *)
Ltac destruct_run :=
  match goal with
  | |- context [let (_, _) := ?m in _] => destruct m as [[? | ?] ?] eqn:?
  end.

Tactic Notation "destruct_run_as" ident(s) :=
  match goal with
  | |- context [let (_, _) := ?m in _] => destruct m as [[? | ?] s] eqn:?
  end.

Ltac run_st :=
  unfold St.try_except, St.bind, St.ret, St.lift, St.modify, St.when, St.raise in *;
  simpl in *.

End Steps.

(* ===================================================================== *)
(** ** Properties *)
(* ===================================================================== *)

(** *** The string and path operations on examples *)

Module PathExamples.
Import PyStr OsPath.

Example basename_plain : basename "/site/img/logo.png" = "logo.png".
Proof. reflexivity. Qed.
Example basename_dir : basename "pics/" = "".
Proof. reflexivity. Qed.
Example dirname_plain : dirname "/site/a.html" = "/site".
Proof. reflexivity. Qed.
Example dirname_root : dirname "/a.html" = "/".
Proof. reflexivity. Qed.
Example join_plain : join "/site" "a_files" = "/site/a_files".
Proof. reflexivity. Qed.
Example join_abs : join "/site" "/etc/x" = "/etc/x".
Proof. reflexivity. Qed.
Example splitext_plain : splitext "Report.v2.HTML" = ("Report.v2", ".HTML").
Proof. reflexivity. Qed.
Example splitext_hidden : splitext ".html" = (".html", "").
Proof. reflexivity. Qed.
Example endswith_html : endswith (lower "Index.HTM") ".htm" = true.
Proof. reflexivity. Qed.
Example strip_both : strip "  a b  " = "a b".
Proof. reflexivity. Qed.
Example split_lines : split LF ("a" +:+ String LF "b") = ["a"; "b"].
Proof. reflexivity. Qed.
Example split_query : split_first "?" "a.png?v=2" = "a.png".
Proof. reflexivity. Qed.

End PathExamples.

(** *** Images: early returns and placeholders *)
(* ===================================================================== *)

Module ImageProps.
Import PyStr OsPath Soup Docx Walk Converter St.
Export Steps.

Lemma truthy_append (a b : string) : truthy (a +:+ b) = truthy a || truthy b.
Proof. destruct a; reflexivity. Qed.

Lemma truthy_join (a b : string) : truthy b = true -> truthy (join a b) = true.
Proof.
  intros Hb. unfold join.
  destruct (startswith b "/"); [exact Hb |].
  destruct (negb (truthy a) || endswith a "/").
  - rewrite truthy_append, Hb. apply orb_true_r.
  - rewrite truthy_append. destruct a; reflexivity.
Qed.

Lemma truthy_basename (p : string) : truthy (basename p) = true -> truthy p = true.
Proof. destruct p; [discriminate | reflexivity]. Qed.

Section WithEnv.
Context {W : Type} (E : Env W).

(** The path the search returns is a non-empty path of an existing file. *)
Lemma find_image_located (w : W) (html_path : string) (files_folder : option string)
      (clean_src img_name img_path : string) :
  truthy clean_src = true ->
  find_image E w html_path files_folder clean_src img_name = Some img_path ->
  truthy img_path && os_path_exists E w img_path = true.
Proof.
  intros Hsrc. unfold find_image.
  set (relative := if os_path_exists E w (join (dirname html_path) clean_src)
                   then Some (join (dirname html_path) clean_src) else None).
  assert (Hrel : relative = Some img_path ->
                 truthy img_path && os_path_exists E w img_path = true).
  { unfold relative.
    destruct (os_path_exists E w (join (dirname html_path) clean_src)) eqn:Hex;
      [| discriminate].
    intros [= <-]. rewrite Hex, (truthy_join _ _ Hsrc). reflexivity. }
  destruct files_folder as [folder |]; [| exact Hrel].
  destruct (truthy folder && os_path_exists E w folder); [| exact Hrel].
  destruct (find (os_path_exists E w) (image_candidates E w folder clean_src img_name))
    as [q |] eqn:Hfind; [| exact Hrel].
  destruct (truthy q) eqn:Hq; [| exact Hrel].
  intros [= <-]. apply find_some in Hfind. rewrite Hq. apply Hfind.
Qed.


End WithEnv.
End ImageProps.

Module ImagePlaceholder.
Import PyStr OsPath Soup Docx Walk Converter St Spec ImageProps.

Lemma list_alter_last {A} (f : A -> A) (l : list A) (x : A) :
  list_alter f (length l) (l ++ [x]) = l ++ [f x].
Proof. induction l as [| y l IH]; simpl; [reflexivity | now rewrite IH]. Qed.




Section WithEnv.
Context {W : Type} (E : Env W).


(** C10.  An [img] whose [src] is empty or a [data:] URI, or whose cleaned
    path has an empty base name, makes [_insert_image] return at once: the
    document is left exactly as it was, with no image and no placeholder. *)
Theorem insert_image_early_return (w : W) (img : node) (html_path : string)
        (files_folder : option string) (paragraph : option nat) (doc : document) :
  let src := Soup.get img "src" "" in
  src = "" \/ startswith src "data:" = true \/ basename (clean src) = "" ->
  _insert_image E w img html_path files_folder paragraph doc = (Ok tt, doc).
Proof.
  intros src H. unfold _insert_image, St.try_except. fold src.
  destruct (negb (truthy src) || startswith src "data:") eqn:Hguard; [reflexivity |].
  apply orb_false_iff in Hguard. destruct Hguard as [Hs Hd].
  destruct H as [H | [H | H]].
  - rewrite H in Hs. discriminate.
  - congruence.
  - rewrite H. reflexivity.
Qed.


End WithEnv.
End ImagePlaceholder.

(** *** Tables *)

Module TableProps.
Import PyStr Soup Docx Converter St Spec ImagePlaceholder.

Lemma list_alter_middle {A} (f : A -> A) (done : list A) (x : A) (rest : list A) :
  list_alter f (length done) (done ++ x :: rest) = done ++ f x :: rest.
Proof. induction done as [| y done IH]; simpl; [reflexivity | now rewrite IH]. Qed.







End TableProps.

(** *** Encodings *)

Module EncodingProps.
Import PyStr OsPath Converter Spec.

Section WithEnv.
Context {W : Type} (E : Env W).










End WithEnv.
End EncodingProps.

(** *** The result of a conversion *)

Module ConvertProps.
Import PyStr OsPath Soup Docx Converter St Spec ImageProps.

Section WithEnv.
Context {W : Type} (E : Env W).

(** What [save_and_verify] answers once the document is written. *)
Lemma save_and_verify_saved (doc : document) (docx_path : string) (w w1 w2 : W) :
  St.when (negb (os_path_exists E w (dirname docx_path)))
          (os_makedirs E (dirname docx_path)) w = (Ok tt, w1) ->
  docx_save E doc docx_path w1 = (Ok tt, w2) ->
  save_and_verify E doc docx_path w
  = (if saved_and_large E w2 docx_path then Ok true
     else if os_path_exists E w2 docx_path then
            match os_path_getsize E w2 docx_path with
            | Ok _ => Ok false
            | Raise e => Raise e
            end
          else Ok false, w2).
Proof.
  intros Hdirs Hsave. unfold save_and_verify, saved_and_large, min_size.
  unfold St.bind at 1. unfold St.get at 1. unfold St.bind at 1. rewrite Hdirs.
  unfold St.bind at 1. rewrite Hsave. unfold St.bind at 1. unfold St.get at 1.
  destruct (os_path_exists E w2 docx_path); simpl; [| reflexivity].
  run_st. destruct (os_path_getsize E w2 docx_path) as [size | e]; [| reflexivity].
  destruct (N.ltb 1024 size); reflexivity.
Qed.

(** [save_and_verify] answers [True] only for a saved file that is large
    enough. *)
Lemma save_and_verify_true (doc : document) (docx_path : string) (w w' : W) :
  save_and_verify E doc docx_path w = (Ok true, w') ->
  saved_and_large E w' docx_path = true.
Proof.
  unfold save_and_verify, saved_and_large, min_size. run_st. unfold St.get.
  destruct_run_as w1; [| discriminate].
  destruct_run_as w2; [| discriminate].
  destruct (os_path_exists E w2 docx_path) eqn:Hexists; [| discriminate].
  destruct (os_path_getsize E w2 docx_path) as [size | e] eqn:Hsize; [| discriminate].
  intros [= Hlarge <-]. rewrite Hexists, Hsize. exact Hlarge.
Qed.

(** The [try]/[except Exception] around the whole conversion: no exception
    leaves [convert_html_to_word]. *)
Lemma convert_never_raises (html_path docx_path : string) (files_folder : option string)
      (w : W) :
  exists b, fst (convert_html_to_word E html_path docx_path files_folder w) = Ok b.
Proof.
  unfold convert_html_to_word, St.try_except.
  match goal with |- exists _, fst (match ?m w with _ => _ end) = _ =>
    destruct (m w) as [[b | e] w'] end; eexists; reflexivity.
Qed.

(** C5.  A conversion is reported as a success only when the saved document
    exists and is larger than 1024 bytes; and once the document has been
    saved, the report is exactly that test: success when the file exists and
    is larger than the threshold, failure when it is missing or not larger. *)
Theorem success_iff_saved_and_large (html_path docx_path : string)
        (files_folder : option string) (w : W) :
  (forall w', convert_html_to_word E html_path docx_path files_folder w = (Ok true, w') ->
              saved_and_large E w' docx_path = true) /\
  (forall doc w1 w2,
     build_document E w html_path files_folder = Ok (Some doc) ->
     St.when (negb (os_path_exists E w (dirname docx_path)))
             (os_makedirs E (dirname docx_path)) w = (Ok tt, w1) ->
     docx_save E doc docx_path w1 = (Ok tt, w2) ->
     convert_html_to_word E html_path docx_path files_folder w
     = (Ok (saved_and_large E w2 docx_path), w2)).
Proof.
  split.
  - intros w'. unfold convert_html_to_word, St.try_except, St.bind, St.get, St.lift.
    destruct (build_document E w html_path files_folder) as [[doc |] | e];
      try (unfold St.ret; discriminate).
    destruct (save_and_verify E doc docx_path w) as [[b | e] w1] eqn:Hsave.
    + intros [= -> <-]. exact (save_and_verify_true _ _ _ Hsave).
    + unfold St.ret. discriminate.
  - intros doc w1 w2 Hbuild Hdirs Hsave.
    unfold convert_html_to_word, St.try_except, St.bind, St.get, St.lift.
    rewrite Hbuild, (save_and_verify_saved doc docx_path w Hdirs Hsave).
    unfold saved_and_large.
    destruct (os_path_exists E w2 docx_path); simpl; [| reflexivity].
    destruct (os_path_getsize E w2 docx_path) as [size | e]; [| reflexivity].
    destruct (N.ltb 1024 size); reflexivity.
Qed.

End WithEnv.
End ConvertProps.

(** *** The run over a directory *)

Module RunProps.
Import PyStr OsPath Soup Docx Walk Converter St Spec ImageProps ConvertProps.

Section WithEnv.
Context {W : Type} (E : Env W).

(** Only the listing of the folder can make the search for the asset
    folder raise. *)
Lemma find_folder_raises (w : W) (html_path : string) (e : exn) :
  find_associated_files_folder E w html_path = Raise e ->
  os_listdir E w (dirname html_path) = Raise e.
Proof.
  unfold find_associated_files_folder.
  destruct (find _ (map (join (dirname html_path)) _)); [discriminate |].
  unfold Err.bind. destruct (os_listdir E w (dirname html_path)); [discriminate |].
  intros [= <-]. reflexivity.
Qed.

Lemma recorded_counted (html_path : string) (c c' : converter) :
  recorded html_path c c' -> counted c -> counted c'.
Proof.
  unfold recorded, counted. intros (Ht & _ & [[Hs Hf] | [Hs Hf]]) Hc;
    rewrite Ht, Hs, Hf, ?length_app; simpl; lia.
Qed.

(** One file: the conversion never raises; the file is counted, and either
    counted as a success or appended once to the failure list.  An exception
    can only come from the creation of the output folder or from the listing
    of the page's folder. *)
Lemma process_file_step (current_dir out_dir root file : string) (w : W) (c : converter) :
  match process_file E current_dir out_dir root file (w, c) with
  | (Ok _, (_, c')) => recorded (join root file) c c'
  | (Raise e, _) =>
      (exists w0, fst (os_makedirs E (output_subdir E current_dir out_dir root) w0)
                  = Raise e) \/
      (exists w0, os_listdir E w0 (dirname (join root file)) = Raise e)
  end.
Proof.
  unfold process_file.
  unfold St.bind at 1. unfold on_snd at 1, St.modify at 1. cbn [fst snd].
  unfold St.bind at 1, St.get at 1.
  unfold St.bind at 1. unfold St.when at 1. cbn [fst snd].
  change (join out_dir _) with (output_subdir E current_dir out_dir root).
  set (subdir := output_subdir E current_dir out_dir root).
  assert (Hprep :
    exists o w1, (if negb (os_path_exists E w subdir)
                  then on_fst (os_makedirs E subdir) else St.ret tt) (w, count_file c)
                 = (o, (w1, count_file c)) /\
                 (forall e, o = Raise e -> fst (os_makedirs E subdir w) = Raise e)).
  { destruct (negb (os_path_exists E w subdir)).
    - unfold on_fst. cbn [fst snd].
      destruct (os_makedirs E subdir w) as [o w1]. exists o, w1. split; [reflexivity |].
      intros e ->. reflexivity.
    - exists (Ok tt), w. split; [reflexivity |]. discriminate. }
  destruct Hprep as (o & w1 & -> & Ho).
  destruct o as [[] | e]; [| left; exists w; now apply Ho].
  unfold St.bind at 1, St.get at 1. unfold St.bind at 1, St.lift at 1. cbn [fst snd].
  destruct (find_associated_files_folder E w1 (join root file)) as [folder | e] eqn:Hfolder;
    [| right; exists w1; now apply find_folder_raises].
  unfold St.bind at 1, on_fst at 1. cbn [fst snd].
  destruct (convert_never_raises E (join root file)
              (join subdir (fst (splitext file) +:+ ".docx")) folder w1) as [b Hb].
  destruct (convert_html_to_word E (join root file) _ folder w1) as [o w2].
  cbn [fst] in Hb. subst o.
  destruct b; unfold on_snd, St.modify; cbn [fst snd]; unfold recorded; simpl.
  - repeat split. left. split; reflexivity.
  - repeat split. right. split; reflexivity.
Qed.

Lemma process_file_prepared (current_dir out_dir root file : string) (w : W)
      (c : converter) :
  file_prepared E current_dir out_dir root file ->
  exists w' c',
    process_file E current_dir out_dir root file (w, c) = (Ok tt, (w', c')) /\
    recorded (join root file) c c'.
Proof.
  intros [Hmk Hls].
  pose proof (process_file_step current_dir out_dir root file w c) as Hstep.
  destruct (process_file E current_dir out_dir root file (w, c)) as [[[] | e] [w' c']].
  - exists w', c'. split; [reflexivity | exact Hstep].
  - exfalso. destruct Hstep as [(w0 & H) | (w0 & H)].
    + rewrite Hmk in H. discriminate.
    + specialize (Hls w0). rewrite H in Hls. discriminate.
Qed.

(** The files of one directory: every file with an HTML name is processed,
    whatever became of the ones before it. *)
Lemma process_files_prepared (current_dir out_dir root : string) (files : list string) :
  files_prepared E current_dir out_dir root files ->
  forall (w : W) (c : converter),
    exists w' c',
      process_files E current_dir out_dir root files (w, c) = (Ok tt, (w', c')) /\
      total_files c' = total_files c + length (filter is_html files) /\
      output_dir c' = output_dir c /\
      (counted c -> counted c').
Proof.
  unfold process_files.
  induction files as [| file files IH]; intros Hprep w c; simpl.
  - exists w, c. repeat split; [lia | tauto].
  - assert (Hrest : files_prepared E current_dir out_dir root files)
      by (intros f Hf; apply Hprep; now right).
    specialize (IH Hrest).
    unfold St.bind at 1. destruct (is_html file) eqn:Hhtml; simpl.
    + destruct (@process_file_prepared current_dir out_dir root file w c
                                       (Hprep file (or_introl eq_refl) Hhtml))
        as (w1 & c1 & -> & Hrec).
      destruct (IH w1 c1) as (w' & c' & -> & Ht & Ho & Hc).
      exists w', c'. destruct Hrec as (Ht1 & Ho1 & Hcase).
      repeat split; [simpl; lia | congruence |].
      intros Hcount. apply Hc.
      apply (@recorded_counted (join root file) c c1); [| exact Hcount].
      repeat split; assumption.
    + destruct (IH w c) as (w' & c' & -> & Ht & Ho & Hc).
      exists w', c'. repeat split; assumption.
Qed.


End WithEnv.
End RunProps.

(** *** The files a run discovers *)

Module DiscoveryProps.
Import PyStr OsPath Walk Converter St Spec RunProps.

(** Induction on a folder, with the property at hand for every sub-folder. *)
Lemma dirtree_induction (P : dirtree -> Prop) :
  (forall files subdirs, Forall (fun d => P (snd d)) subdirs -> P (Dir files subdirs)) ->
  forall t, P t.
Proof.
  intros Hdir. fix IH 1. intros [files subdirs]. apply Hdir.
  induction subdirs as [| d subdirs IHs]; constructor.
  - apply IH.
  - exact IHs.
Qed.

Lemma list_sum_flat_map {A B} (g : B -> nat) (F : A -> list B) (l : list A) :
  list_sum (map g (flat_map F l)) = list_sum (map (fun a => list_sum (map g (F a))) l).
Proof.
  induction l as [| a l IH]; simpl; [reflexivity |].
  now rewrite map_app, list_sum_app, IH.
Qed.

Lemma list_sum_map_ext {A} (f g : A -> nat) (l : list A) :
  Forall (fun a => f a = g a) l -> list_sum (map f l) = list_sum (map g l).
Proof. induction 1 as [| a l Ha _ IH]; simpl; [reflexivity | now rewrite Ha, IH]. Qed.

(** The files with an HTML name that the pruned walk meets are the files in
    scope. *)
Lemma walk_meets_files_in_scope (t : dirtree) :
  forall top,
    list_sum (map (fun entry => length (filter is_html (snd entry))) (walk keep_dir top t))
    = html_files_in_scope t.
Proof.
  induction t as [files subdirs IH] using dirtree_induction. intros top.
  cbn [walk html_files_in_scope]. cbn [map list_sum snd].
  match goal with
  | |- list_sum (?n :: ?l) = _ => change (list_sum (n :: l)) with (n + list_sum l)
  end.
  f_equal. rewrite list_sum_flat_map. apply list_sum_map_ext.
  rewrite Forall_forall in *. intros d Hd. unfold keep_dir at 1.
  destruct (endswith (fst d) "_files"); cbn [negb andb orb map list_sum];
    [reflexivity |].
  destruct (mem (fst d) excluded_dirs); cbn [negb map list_sum]; [reflexivity |].
  apply (IH d Hd).
Qed.

Section WithEnv.
Context {W : Type} (E : Env W).

Lemma process_entries_prepared (current_dir out_dir : string)
      (entries : list (string * list string * list string)) :
  (forall entry, In entry entries ->
                 files_prepared E current_dir out_dir (fst (fst entry)) (snd entry)) ->
  forall (w : W) (c : converter),
    exists w' c',
      St.for_each entries
        (fun entry => process_files E current_dir out_dir (fst (fst entry)) (snd entry))
        (w, c) = (Ok tt, (w', c')) /\
      total_files c'
      = total_files c
        + list_sum (map (fun entry => length (filter is_html (snd entry))) entries) /\
      output_dir c' = output_dir c /\
      (counted c -> counted c').
Proof.
  induction entries as [| entry entries IH]; intros Hprep w c; simpl.
  - exists w, c. repeat split; [lia | tauto].
  - assert (Hrest : forall e, In e entries ->
                      files_prepared E current_dir out_dir (fst (fst e)) (snd e))
      by (intros e He; apply Hprep; now right).
    specialize (IH Hrest).
    unfold St.bind at 1.
    destruct (process_files_prepared (Hprep entry (or_introl eq_refl)) w c)
      as (w1 & c1 & -> & Ht1 & Ho1 & Hc1).
    destruct (IH w1 c1) as (w' & c' & -> & Ht & Ho & Hc).
    exists w', c'. repeat split; [lia | congruence | tauto].
Qed.

(** C2, as the code has it.  When the output folders can be created and
    the folders of the pages listed, a
    run over a working directory whose tree is [t] discovers exactly the
    files of [t] with a name ending in [.html] or [.htm], in any letter case,
    that do not lie beneath a directory named [..._files], [word],
    [__pycache__], [.git] or [logs]; the other files are not counted. *)
Theorem total_is_html_in_scope (current_dir : string) (t : dirtree) (w : W) :
  run_prepared E current_dir t ->
  (forall w0, os_tree E w0 current_dir = Some t) ->
  exists w' c',
    process_directory E current_dir (w, init)
    = (Ok (html_files_in_scope t, success_files c',
           Some (join (dirname current_dir) "word")), (w', c')) /\
    total_files c' = html_files_in_scope t /\
    counted c'.
Proof.
  intros [Hout Hprep] Htree. unfold process_directory.
  set (out_dir := join (dirname current_dir) "word").
  unfold St.bind at 1. unfold on_snd at 1, St.modify at 1. cbn [fst snd].
  unfold St.bind at 1, St.get at 1. unfold St.bind at 1. cbn [fst snd].
  assert (Hmk : exists w1,
             St.when (negb (os_path_exists E w out_dir)) (on_fst (os_makedirs E out_dir))
                     (w, set_output_dir out_dir init)
             = (Ok tt, (w1, set_output_dir out_dir init))).
  { unfold St.when. destruct (negb (os_path_exists E w out_dir)).
    - unfold on_fst. cbn [fst snd].
      pose proof (Hout w) as Hmk. fold out_dir in Hmk.
      destruct (os_makedirs E out_dir w) as [o w1].
      cbn [fst] in Hmk. subst o. exists w1. reflexivity.
    - exists w. reflexivity. }
  destruct Hmk as (w1 & ->).
  unfold St.bind at 1, St.get at 1. cbn [fst snd]. rewrite Htree.
  unfold St.bind at 1.
  destruct (@process_entries_prepared current_dir out_dir (walk keep_dir current_dir t)
                                      Hprep w1 (set_output_dir out_dir init))
    as (w' & c' & -> & Ht & Ho & Hc).
  rewrite walk_meets_files_in_scope in Ht. simpl in Ht, Ho.
  exists w', c'. unfold St.bind, St.get, St.ret. cbn [fst snd].
  rewrite Ht, Ho. repeat split. apply Hc. reflexivity.
Qed.

End WithEnv.
End DiscoveryProps.

(** *** The converter on the two folders *)

Module Runs.
Import PyStr OsPath Soup Docx Walk Converter St Spec Toy Scenario.
Import ImagePlaceholder TableProps EncodingProps ConvertProps RunProps DiscoveryProps.

(** The first page of [/site] is converted, with a placeholder for each of
    the two images that could not be embedded. *)
Example page_is_built :
  build_document (env site) [] "/site/page.html" (Some "/site/page_files")
  = Ok (Some page_document).
Proof. reflexivity. Qed.

Example page_is_converted :
  convert_html_to_word (env site) "/site/page.html" "/word/page.docx"
                       (Some "/site/page_files") []
  = (Ok true, [("/word/page.docx", 36000%N)]).
Proof. reflexivity. Qed.

(** An inline image changes nothing. *)
Lemma insert_image_early_return_witness :
  _insert_image (env site) [] inline_img "/site/page.html" (Some "/site/page_files")
                None page_document
  = (Ok tt, page_document).
Proof.
  apply (@insert_image_early_return world (env site) [] inline_img).
  right. left. reflexivity.
Defined.



(** A document saved at exactly 1024 bytes is not large enough. *)
Lemma success_iff_saved_and_large_witness :
  convert_html_to_word (env tiny) "/site/page.html" "/word/page.docx"
                       (Some "/site/page_files") []
  = (Ok false, [("/word/page.docx", 1024%N)]).
Proof.
  exact (proj2 (@success_iff_saved_and_large world (env tiny) "/site/page.html"
                  "/word/page.docx" (Some "/site/page_files") [])
               page_document [] [("/word/page.docx", 1024%N)] eq_refl eq_refl eq_refl).
Defined.




(** C2, as stated, fails on [/site]: the folder holds three files with an
    HTML name, and the run discovers two, because the third lies in the
    asset folder [page_files], which the walk does not enter. *)
Lemma discovered_is_not_every_html_file :
  html_files site_tree = 3 /\
  fst (process_directory (env site) "/site" ([], init)) = Ok (2, 1, Some "/word").
Proof. split; reflexivity. Qed.

(** The run over [/site] discovers the two pages in scope. *)
Lemma total_is_html_in_scope_witness :
  exists w' c',
    process_directory (env site) "/site" ([], init)
    = (Ok (2, success_files c', Some "/word"), (w', c')) /\
    total_files c' = 2 /\ counted c'.
Proof.
  apply (@total_is_html_in_scope world (env site) "/site" site_tree []).
  - split; [intros w; reflexivity |].
    intros entry [<- | []] file Hin Hhtml.
    simpl in Hin. destruct Hin as [<- | [<- | [<- | []]]];
      try discriminate Hhtml; split; intros w; reflexivity.
  - intros w0. reflexivity.
Defined.

(** C8 on [/docs]: the folder [Report-images] lies beside [Report.html], its
    name contains the page's base name and the word "image", and none of the
    conventional folders exists; yet no asset folder is found, because the
    folder's name is compared in lower case with the base name as it is. *)
Theorem similar_folder_is_missed :
  find (fun p => os_path_exists (env reports) [] p && os_path_isdir (env reports) [] p)
       (map (join "/docs") (possible_names "Report")) = None /\
  os_path_isdir (env reports) [] "/docs/Report-images" = true /\
  contains "Report" "Report-images" = true /\
  contains "image" "Report-images" = true /\
  find_associated_files_folder (env reports) [] "/docs/Report.html" = Ok None.
Proof. repeat split; reflexivity. Qed.

(** C9 on a paragraph with a text and a bold part: the stripped text of the
    paragraph is "Helloworld", and the run added last repeats the text child
    "Hello", which the loop left in the variable [text]. *)
Theorem final_run_is_last_text_child {W : Type} (E : Env W) (w : W) (html_path : string)
        (files_folder : option string) :
  get_text hello_p = "Helloworld" /\
  convert_p E w html_path files_folder hello_p []
  = (Ok tt, [Para (mkPar None None
                         [text_run "Hello"; with_bold (text_run "world"); text_run "Hello"])]).
Proof. split; reflexivity. Qed.

End Runs.

(** *** Paragraphs: the run that closes them *)

Module ParagraphProps.
Import PyStr OsPath Soup Docx Walk Converter St Spec Toy Scenario.
Import ImageProps ImagePlaceholder TableProps.

Lemma add_run_last (r : run) (doc : document) (p : paragraph) :
  add_run (length doc) r (doc ++ [Para p]) = (Ok tt, doc ++ [Para (push_run r p)]).
Proof. unfold add_run, St.modify. now rewrite list_alter_last. Qed.

Lemma set_last_run_last (f : run -> run) (doc : document) (p : paragraph) :
  set_last_run (length doc) f (doc ++ [Para p]) = (Ok tt, doc ++ [Para (on_last_run f p)]).
Proof. unfold set_last_run, St.modify. now rewrite list_alter_last. Qed.


Section WithEnv.
Context {W : Type} (E : Env W).





End WithEnv.


End ParagraphProps.

(** *** The asset folder when the page's name has no capital letter *)

Module FolderProps.
Import PyStr OsPath Converter Spec Toy Scenario.

Section WithEnv.
Context {W : Type} (E : Env W).


End WithEnv.


End FolderProps.

(** *** The element mapper, branch by branch *)

Module MapperProps.
Import PyStr OsPath Soup Docx Walk Converter St Spec Notions.
Import ImageProps ImagePlaceholder TableProps ParagraphProps.

Lemma for_each_app {S A} (l1 l2 : list A) (body : A -> M S unit) (s : S) :
  for_each (l1 ++ l2) body s
  = match for_each l1 body s with
    | (Ok _, s') => for_each l2 body s'
    | (Raise e, s') => (Raise e, s')
    end.
Proof.
  revert s. induction l1 as [| x l1 IH]; intros s; simpl; [reflexivity |].
  unfold St.bind. destruct (body x s) as [[[] | e] s']; [apply IH | reflexivity].
Qed.

Section WithEnv.
Context {W : Type} (E : Env W).




(** Where the last paragraph of a document is. *)
Lemma last_paragraph_from_none (doc : document) :
  forall i, paragraphs doc = [] -> last_paragraph_from i doc = None.
Proof.
  induction doc as [| b doc IH]; intros i Hnone; simpl; [reflexivity |].
  destruct b as [p | cells]; simpl in Hnone; [discriminate |].
  now rewrite (IH (S i) Hnone).
Qed.

Lemma last_paragraph_from_found (pre : document) (p : paragraph) (post : document) :
  forall i, paragraphs post = [] ->
            last_paragraph_from i (pre ++ Para p :: post) = Some (i + length pre).
Proof.
  induction pre as [| b pre IH]; intros i Hpost; simpl.
  - rewrite (last_paragraph_from_none post (S i) Hpost). simpl. f_equal. lia.
  - rewrite (IH (S i) Hpost). f_equal. lia.
Qed.

Lemma on_last_run_pushed (f : run -> run) (r : run) (p : paragraph) :
  on_last_run f (push_run r p) = push_run (f r) p.
Proof.
  unfold on_last_run, push_run. simpl. f_equal.
  rewrite length_app. simpl.
  replace (length (par_runs p) + 1 - 1) with (length (par_runs p)) by lia.
  apply list_alter_last.
Qed.

(** X5.  A [br] never adds a block: in a document without paragraph
    (empty, or holding tables only) it changes nothing; otherwise it adds an
    empty run carrying a break at the end of the last paragraph, wherever
    that paragraph stands among the tables. *)
Theorem br_breaks_last_paragraph (doc : document) :
  (paragraphs doc = [] -> convert_br doc = (Ok tt, doc)) /\
  (forall pre p post,
     doc = pre ++ Para p :: post -> paragraphs post = [] ->
     convert_br doc = (Ok tt, pre ++ Para (push_run (with_break empty_run) p) :: post)).
Proof.
  split.
  - intros Hnone. unfold convert_br, St.bind, St.get, last_paragraph.
    now rewrite (last_paragraph_from_none doc 0 Hnone).
  - intros pre p post -> Hpost. unfold convert_br, St.bind, St.get, last_paragraph.
    rewrite (last_paragraph_from_found pre p post 0 Hpost). simpl Nat.add.
    unfold add_run, set_last_run, St.modify.
    rewrite !list_alter_middle. simpl on_para. now rewrite on_last_run_pushed.
Qed.






End WithEnv.
End MapperProps.

(** *** Images: where they are looked for, and what a found one becomes *)

Module ImageSearch.
Import PyStr OsPath Soup Docx Walk Converter St Spec Notions.
Import ImageProps ImagePlaceholder TableProps ParagraphProps.

Lemma list_alter_twice {A} (f g : A -> A) (i : nat) (l : list A) :
  list_alter f i (list_alter g i l) = list_alter (fun x => f (g x)) i l.
Proof.
  revert i. induction l as [| x l IH]; intros [| i]; simpl; try reflexivity.
  now rewrite IH.
Qed.

Lemma list_alter_ext {A} (f g : A -> A) (i : nat) (l : list A) :
  (forall x, f x = g x) -> list_alter f i l = list_alter g i l.
Proof.
  intros Hfg. revert i. induction l as [| x l IH]; intros [| i]; simpl; try reflexivity.
  - now rewrite Hfg.
  - now rewrite IH.
Qed.



Lemma on_last_run_pushed_run (f : run -> run) (r : run) (p : paragraph) :
  on_last_run f (push_run r p) = push_run (f r) p.
Proof.
  unfold on_last_run, push_run. simpl. f_equal.
  rewrite length_app. simpl.
  replace (length (par_runs p) + 1 - 1) with (length (par_runs p)) by lia.
  apply list_alter_last.
Qed.

Section WithEnv.
Context {W : Type} (E : Env W).



(** X8.  An image whose file is found and accepted is embedded and nothing
    else is added: as one run holding the picture at the end of the paragraph
    being filled, or in one centred paragraph of its own at the end of the
    document; no placeholder text appears. *)
Theorem found_image_is_embedded (w : W) (attrs : list (string * string))
        (cs : list node) (html_path : string) (files_folder : option string)
        (paragraph : option nat) (doc : document) (img_path : string) :
  let img := Tag "img" attrs cs in
  let src := Soup.get img "src" "" in
  let img_name := basename (clean src) in
  truthy src = true -> startswith src "data:" = false -> truthy img_name = true ->
  find_image E w html_path files_folder (clean src) img_name = Some img_path ->
  docx_add_picture E w img_path = Ok tt ->
  _insert_image E w img html_path files_folder paragraph doc
  = (Ok tt, with_image paragraph img_path doc).
Proof.
  intros img src img_name Hsrc Hdata Hname Hfound Hpicture.
  unfold _insert_image. fold img. fold src. fold img_name.
  unfold St.try_except at 1. rewrite Hsrc, Hdata, Hname. cbn [negb orb].
  rewrite Hfound.
  rewrite (find_image_located E w html_path files_folder (clean src) img_name);
    [| apply truthy_basename; exact Hname | exact Hfound].
  unfold St.try_except, add_picture, St.bind, St.lift, St.ret, with_image.
  destruct paragraph as [para |].
  - unfold add_run, set_last_run, St.modify. rewrite Hpicture.
    rewrite list_alter_twice. f_equal. apply list_alter_ext.
    intros [p | cells]; simpl; [| reflexivity]. now rewrite on_last_run_pushed_run.
  - unfold add_block. rewrite add_run_last, Hpicture, set_last_run_last.
    now rewrite on_last_run_pushed_run.
Qed.

End WithEnv.
End ImageSearch.

(** *** Encodings: what detection never returns *)

Module DetectionProps.
Import PyStr OsPath Converter Spec Notions EncodingProps.

Section WithEnv.
Context {W : Type} (E : Env W).

Lemma first_decodable_listed (raw_data : list Byte.byte) (encodings : list string)
      (encoding : string) :
  first_decodable E raw_data encodings = Some encoding -> In encoding encodings.
Proof.
  induction encodings as [| enc rest IH]; simpl; [discriminate |].
  destruct (decode E enc Strict raw_data).
  - intros [= <-]. now left.
  - intros H. right. exact (IH H).
Qed.

(** X9.  [detect_encoding] never answers [gb2312]: a detected [gb2312]
    becomes [gb18030] and the fallback list does not hold it.  It answers
    [utf-8] when the file cannot be opened, when the detector raises, and
    when the detector is confident but names no encoding. *)
Theorem detect_encoding_never_gb2312 (w : W) (file_path : string) :
  (forall encoding, detect_encoding E w file_path = Ok encoding -> encoding <> "gb2312") /\
  (forall e, file_bytes E w file_path = Raise e ->
             detect_encoding E w file_path = Ok "utf-8") /\
  (forall raw e,
     file_bytes E w file_path = Ok raw ->
     chardet_detect E (firstn sample_size raw) = Raise e ->
     detect_encoding E w file_path = Ok "utf-8") /\
  (forall raw confidence,
     file_bytes E w file_path = Ok raw ->
     chardet_detect E (firstn sample_size raw) = Ok (None, confidence) ->
     PrimFloat.ltb confidence_threshold confidence = true ->
     detect_encoding E w file_path = Ok "utf-8").
Proof.
  unfold detect_encoding, Err.try_except, Err.bind.
  split; [| split; [| split]].
  - intros encoding.
    destruct (file_bytes E w file_path) as [raw | e]; [| intros [= <-]; discriminate].
    destruct (chardet_detect E (firstn sample_size raw)) as [[guess confidence] | e];
      [| intros [= <-]; discriminate].
    cbn [fst snd].
    destruct (PrimFloat.ltb confidence_threshold confidence).
    + destruct guess as [name |]; [| intros [= <-]; discriminate].
      destruct (String.eqb (lower name) "gb2312") eqn:Hgb.
      * intros [= <-]. discriminate.
      * intros [= <-]. now apply String.eqb_neq.
    + destruct (first_decodable E (firstn sample_size raw) fallback_encodings)
        as [enc |] eqn:Hfirst.
      * intros [= <-]. apply first_decodable_listed in Hfirst.
        destruct Hfirst as [<- | [<- | [<- | [<- | []]]]]; discriminate.
      * intros [= <-]. discriminate.
  - intros e ->. reflexivity.
  - intros raw e -> ->. reflexivity.
  - intros raw confidence -> ->. cbn [fst snd]. intros ->. reflexivity.
Qed.

End WithEnv.
End DetectionProps.

(** *** Conversions: what makes a page fail and what cannot *)

Module PageProps.
Import PyStr OsPath Soup Docx Walk Converter St Spec Notions.
Import ImageProps ImagePlaceholder TableProps ParagraphProps ConvertProps MapperProps.


Lemma mem_listed (x : string) (l : list string) : mem x l = true -> In x l.
Proof.
  unfold mem. intros H. apply existsb_exists in H. destruct H as (y & Hy & Heq).
  apply String.eqb_eq in Heq. now subst.
Qed.


Lemma for_each_raises {S A} (body : A -> M S unit) (l : list A) (x : A) :
  In x l ->
  (forall s, exists e s', body x s = (Raise e, s')) ->
  forall s, exists e s', for_each l body s = (Raise e, s').
Proof.
  intros Hin Hx. induction l as [| y l IH]; [destruct Hin |]. intros s. simpl.
  unfold St.bind. destruct (body y s) as [[[] | e] s1] eqn:Hy.
  - destruct Hin as [-> | Hin].
    + destruct (Hx s) as (e & s' & Hraise). rewrite Hraise in Hy. discriminate.
    + apply IH. exact Hin.
  - exists e, s1. reflexivity.
Qed.

Section WithEnv.
Context {W : Type} (E : Env W).


(** A conversion that stops before the saving step answers [False] and
    leaves the file system as it was. *)
Lemma convert_stops_early (html_path docx_path : string) (files_folder : option string)
      (w : W) :
  (build_document E w html_path files_folder = Ok None \/
   exists e, build_document E w html_path files_folder = Raise e) ->
  convert_html_to_word E html_path docx_path files_folder w = (Ok false, w).
Proof.
  unfold convert_html_to_word, St.try_except, St.bind, St.get, St.lift, St.ret.
  intros [-> | [e ->]]; reflexivity.
Qed.










(** A link makes the loop over a paragraph's children raise when its
    colour is refused. *)
Lemma p_children_raise (w : W) (html_path : string) (files_folder : option string)
      (e : exn) (cs : list node) :
  docx_set_rgb E "0000FF" = Raise e ->
  existsb (named ["a"]) cs = true ->
  forall (para : nat) (text : string) (doc : document),
    exists e' doc',
      p_children E w html_path files_folder para cs text doc = (Raise e', doc').
Proof.
  intros Hrgb. induction cs as [| c cs IH]; intros Hlink para text doc; [discriminate |].
  cbn [p_children]. unfold St.bind at 1.
  destruct (p_child E w html_path files_folder para c text doc) as [[t | e'] d] eqn:Hchild;
    [| exists e', d; reflexivity].
  cbn [existsb] in Hlink. apply orb_true_iff in Hlink. destruct Hlink as [Ha | Hrest].
  - exfalso. destruct c as [s | s | name attrs children]; try discriminate.
    unfold named in Ha. apply mem_listed in Ha. destruct Ha as [<- | []].
    unfold p_child in Hchild. cbn in Hchild.
    unfold St.bind, St.lift, add_run, St.modify in Hchild. rewrite Hrgb in Hchild.
    discriminate.
  - apply IH. exact Hrest.
Qed.

(** X12.  Where python-docx refuses the string ['0000FF'] as the colour of
    a link, a page that holds a paragraph with text and a link directly in
    it is reported as a failure and nothing is saved, even though it was
    read and parsed. *)
Theorem refused_link_fails_page (html_path docx_path : string)
        (files_folder : option string) (w : W) (content : string) (soup : node)
        (e : exn) :
  let page := decompose_all ["script"; "style"] soup in
  let body := match find_tag "body" page with Some b => b | None => page end in
  docx_set_rgb E "0000FF" = Raise e ->
  read_html_file E w html_path = Ok content ->
  html_parse E content = Ok soup ->
  existsb paragraph_with_link (find_all block_tags body) = true ->
  convert_html_to_word E html_path docx_path files_folder w = (Ok false, w).
Proof.
  intros page body Hrgb Hread Hparse Hlink.
  apply convert_stops_early.
  unfold build_document, Err.bind. rewrite Hread.
  destruct (negb (truthy content) || negb (truthy (strip content))); [left; reflexivity |].
  rewrite Hparse. fold page. fold body. right.
  apply existsb_exists in Hlink. destruct Hlink as (element & Hin & Hp).
  unfold paragraph_with_link in Hp.
  apply andb_true_iff in Hp. destruct Hp as [Hp Hchildren].
  apply andb_true_iff in Hp. destruct Hp as [Hname Htext].
  destruct element as [s | s | name attrs cs]; try discriminate.
  unfold named in Hname. apply mem_listed in Hname. destruct Hname as [<- | []].
  assert (Hraise : forall doc, exists e' doc',
             convert_element E w html_path files_folder (Tag "p" attrs cs) doc
             = (Raise e', doc')).
  { intros doc.
    change (convert_element E w html_path files_folder (Tag "p" attrs cs) doc)
      with (convert_p E w html_path files_folder (Tag "p" attrs cs) doc).
    unfold convert_p. rewrite Htext. unfold St.when.
    unfold St.bind at 1. unfold add_block at 1.
    destruct (@p_children_raise w html_path files_folder e cs Hrgb Hchildren
                                (length doc) (get_text (Tag "p" attrs cs))
                                (doc ++ [Para empty_paragraph])) as (e' & doc' & Hloop).
    exists e', doc'. unfold St.bind. cbn [children]. rewrite Hloop. reflexivity. }
  destruct (@for_each_raises document node (convert_element E w html_path files_folder)
              (find_all block_tags body) (Tag "p" attrs cs) Hin Hraise [])
    as (e' & doc' & Hmap).
  exists e'. unfold convert_elements, St.bind. rewrite Hmap. reflexivity.
Qed.

End WithEnv.
End PageProps.

(** *** The counters when a run is cut short *)

Module AccountProps.
Import PyStr OsPath Soup Docx Walk Converter St Spec Notions.
Import ImageProps ConvertProps RunProps.

Section WithEnv.
Context {W : Type} (E : Env W).

(** One file, whatever the outcome: it is recorded, or the exception came
    before the conversion and the file is counted but recorded nowhere. *)
Lemma process_file_any (current_dir out_dir root file : string) (w : W) (c : converter) :
  exists o w' c',
    process_file E current_dir out_dir root file (w, c) = (o, (w', c')) /\
    ((o = Ok tt /\ recorded (join root file) c c') \/
     (exists e, o = Raise e /\ c' = count_file c)).
Proof.
  unfold process_file.
  unfold St.bind at 1. unfold on_snd at 1, St.modify at 1. cbn [fst snd].
  unfold St.bind at 1, St.get at 1.
  unfold St.bind at 1. unfold St.when at 1. cbn [fst snd].
  change (join out_dir _) with (output_subdir E current_dir out_dir root).
  set (subdir := output_subdir E current_dir out_dir root).
  assert (Hprep :
    exists o w1, (if negb (os_path_exists E w subdir)
                  then on_fst (os_makedirs E subdir) else St.ret tt) (w, count_file c)
                 = (o, (w1, count_file c))).
  { destruct (negb (os_path_exists E w subdir)).
    - unfold on_fst. cbn [fst snd].
      destruct (os_makedirs E subdir w) as [o w1]. exists o, w1. reflexivity.
    - exists (Ok tt), w. reflexivity. }
  destruct Hprep as (o & w1 & ->).
  destruct o as [[] | e];
    [| exists (Raise e), w1, (count_file c); split; [reflexivity | right; eauto]].
  unfold St.bind at 1, St.get at 1. unfold St.bind at 1, St.lift at 1. cbn [fst snd].
  destruct (find_associated_files_folder E w1 (join root file)) as [folder | e];
    [| exists (Raise e), w1, (count_file c); split; [reflexivity | right; eauto]].
  unfold St.bind at 1, on_fst at 1. cbn [fst snd].
  destruct (convert_never_raises E (join root file)
              (join subdir (fst (splitext file) +:+ ".docx")) folder w1) as [b Hb].
  destruct (convert_html_to_word E (join root file) _ folder w1) as [o w2].
  cbn [fst] in Hb. subst o.
  destruct b; unfold on_snd, St.modify; cbn [fst snd].
  - exists (Ok tt), w2, (count_success (count_file c)). split; [reflexivity |].
    left. split; [reflexivity |]. unfold recorded. simpl. repeat split. left. split; reflexivity.
  - exists (Ok tt), w2, (record_failure (join root file) (count_file c)).
    split; [reflexivity |].
    left. split; [reflexivity |]. unfold recorded. simpl. repeat split. right. split; reflexivity.
Qed.

Lemma accounted_file (root file : string) (c c' : converter) (o : outcome unit) :
  (o = Ok tt /\ recorded (join root file) c c') \/
  (exists e, o = Raise e /\ c' = count_file c) ->
  accounted [join root file] c o c'.
Proof.
  intros [[-> Hrec] | (e & -> & ->)].
  - split; [| split].
    + destruct Hrec as (_ & _ & [[_ Hf] | [_ Hf]]).
      * exists []. rewrite Hf, app_nil_r. split; [reflexivity | apply incl_nil_l].
      * exists [join root file]. split; [exact Hf | apply incl_refl].
    + apply Hrec.
    + intros Hc. exact (recorded_counted Hrec Hc).
  - split; [| split].
    + exists []. simpl. rewrite app_nil_r. split; [reflexivity | apply incl_nil_l].
    + reflexivity.
    + unfold counted, one_pending. simpl. lia.
Qed.

Lemma accounted_then (pages1 pages2 : list string) (c c1 c2 : converter)
      (o : outcome unit) :
  accounted pages1 c (Ok tt) c1 -> accounted pages2 c1 o c2 ->
  accounted (pages1 ++ pages2) c o c2.
Proof.
  intros ((l1 & Hf1 & Hi1) & Ho1 & Hc1) ((l2 & Hf2 & Hi2) & Ho2 & Hc2).
  split; [| split].
  - exists (l1 ++ l2). rewrite Hf2, Hf1, app_assoc. split; [reflexivity |].
    apply incl_app; [apply incl_appl | apply incl_appr]; assumption.
  - congruence.
  - intros Hc. apply Hc2. exact (Hc1 Hc).
Qed.

Lemma accounted_cut (pages1 pages2 : list string) (c c1 : converter) (e : exn) :
  accounted pages1 c (Raise e) c1 -> accounted (pages1 ++ pages2) c (Raise e) c1.
Proof.
  intros ((l1 & Hf1 & Hi1) & Ho1 & Hc1). split; [| split]; try assumption.
  exists l1. split; [exact Hf1 | now apply incl_appl].
Qed.

Lemma accounted_nothing (c : converter) : accounted [] c (Ok tt) c.
Proof.
  split; [| split]; try tauto.
  exists []. rewrite app_nil_r. split; [reflexivity | apply incl_refl].
Qed.

Lemma process_files_any (current_dir out_dir root : string) (files : list string) :
  forall (w : W) (c : converter),
    exists o w' c',
      process_files E current_dir out_dir root files (w, c) = (o, (w', c')) /\
      accounted (map (join root) (filter is_html files)) c o c'.
Proof.
  unfold process_files. induction files as [| file files IH]; intros w c.
  - exists (Ok tt), w, c. split; [reflexivity | apply accounted_nothing].
  - cbn [for_each filter]. unfold St.bind at 1. unfold St.when at 1.
    destruct (is_html file).
    + destruct (process_file_any current_dir out_dir root file w c)
        as (o1 & w1 & c1 & -> & Hfile).
      apply accounted_file in Hfile. cbn [map].
      change (join root file :: map (join root) (filter is_html files))
        with ([join root file] ++ map (join root) (filter is_html files)).
      destruct o1 as [[] | e].
      * destruct (IH w1 c1) as (o & w' & c' & -> & Hrest).
        exists o, w', c'. split; [reflexivity |]. exact (accounted_then Hfile Hrest).
      * exists (Raise e), w1, c1. split; [reflexivity |]. exact (accounted_cut _ Hfile).
    + unfold St.ret. apply IH.
Qed.

Lemma process_entries_any (current_dir out_dir : string)
      (entries : list (string * list string * list string)) :
  forall (w : W) (c : converter),
    exists o w' c',
      for_each entries
        (fun entry => process_files E current_dir out_dir (fst (fst entry)) (snd entry))
        (w, c) = (o, (w', c')) /\
      accounted (discovered entries) c o c'.
Proof.
  induction entries as [| entry entries IH]; intros w c.
  - exists (Ok tt), w, c. split; [reflexivity | apply accounted_nothing].
  - cbn [for_each]. unfold St.bind at 1.
    destruct (process_files_any current_dir out_dir (fst (fst entry)) (snd entry) w c)
      as (o1 & w1 & c1 & -> & Hfiles).
    unfold discovered. cbn [flat_map]. fold (discovered entries).
    destruct o1 as [[] | e].
    + destruct (IH w1 c1) as (o & w' & c' & -> & Hrest).
      exists o, w', c'. split; [reflexivity |]. exact (accounted_then Hfiles Hrest).
    + exists (Raise e), w1, c1. split; [reflexivity |]. exact (accounted_cut _ Hfiles).
Qed.

(** A whole run, whatever the outcome. *)
Lemma process_directory_any (current_dir : string) (w : W) :
  exists o w1 w' c',
    process_directory E current_dir (w, init) = (o, (w', c')) /\
    incl (failed_files c')
         (discovered (match os_tree E w1 current_dir with
                      | Some t => walk keep_dir current_dir t
                      | None => []
                      end)) /\
    output_dir c' = Some (join (dirname current_dir) "word") /\
    match o with
    | Ok r => counted c' /\ r = (total_files c', success_files c', output_dir c')
    | Raise _ => (total_files c' = 0 /\ success_files c' = 0 /\ failed_files c' = []) \/
                 one_pending c'
    end.
Proof.
  unfold process_directory.
  set (out_dir := join (dirname current_dir) "word").
  unfold St.bind at 1. unfold on_snd at 1, St.modify at 1. cbn [fst snd].
  unfold St.bind at 1, St.get at 1. unfold St.bind at 1. cbn [fst snd].
  unfold St.when at 1.
  assert (Hmk : exists o w1,
             (if negb (os_path_exists E w out_dir)
              then on_fst (os_makedirs E out_dir) else St.ret tt)
               (w, set_output_dir out_dir init)
             = (o, (w1, set_output_dir out_dir init))).
  { destruct (negb (os_path_exists E w out_dir)).
    - unfold on_fst. cbn [fst snd]. destruct (os_makedirs E out_dir w) as [o w1].
      exists o, w1. reflexivity.
    - exists (Ok tt), w. reflexivity. }
  destruct Hmk as (o & w1 & ->).
  destruct o as [[] | e].
  - unfold St.bind at 1, St.get at 1. cbn [fst snd]. unfold St.bind at 1.
    destruct (process_entries_any current_dir out_dir
                (match os_tree E w1 current_dir with
                 | Some t => walk keep_dir current_dir t
                 | None => []
                 end) w1 (set_output_dir out_dir init))
      as (o & w' & c' & -> & (l & Hfailed & Hincl) & Hout & Hcount).
    simpl in Hfailed, Hout. subst l.
    assert (Hinit : counted (set_output_dir out_dir init)) by reflexivity.
    destruct o as [[] | e].
    + unfold St.bind, St.get, St.ret. cbn [fst snd].
      eexists _, w1, w', c'. split; [reflexivity |].
      split; [exact Hincl |]. split; [exact Hout |].
      split; [exact (Hcount Hinit) | reflexivity].
    + exists (Raise e), w1, w', c'. split; [reflexivity |].
      split; [exact Hincl |]. split; [exact Hout |]. right. exact (Hcount Hinit).
  - exists (Raise e), w1, w1, (set_output_dir out_dir init). split; [reflexivity |].
    split; [apply incl_nil_l |]. split; [reflexivity |]. left. repeat split.
Qed.

(** X13.  Whatever happens during a run, every path of the failure list is
    the path of a page the scan discovered: a file with an HTML name met by
    the walk; a page that was never reached, and a file that is no page, are
    never listed as failures. *)
Theorem failure_list_holds_discovered_pages (current_dir : string)
        (tree : option dirtree) (w : W) :
  (forall w0, os_tree E w0 current_dir = tree) ->
  incl (failed_files (snd (snd (process_directory E current_dir (w, init)))))
       (discovered (match tree with
                    | Some t => walk keep_dir current_dir t
                    | None => []
                    end)).
Proof.
  intros Htree.
  destruct (process_directory_any current_dir w) as (o & w1 & w' & c' & -> & Hincl & _).
  rewrite Htree in Hincl. exact Hincl.
Qed.

(** X14.  The counters at the end of a run.  A run that returns leaves
    [total_files = success_files + len(failed_files)] and returns these
    counters with the output folder [<parent>/word].  A run cut short by an
    exception stopped before any file was counted, or leaves exactly one file
    counted in [total_files] that is neither a success nor a failure. *)
Theorem counters_after_a_run (current_dir : string) (w : W) :
  match process_directory E current_dir (w, init) with
  | (Ok r, (_, c')) =>
      counted c' /\
      r = (total_files c', success_files c', Some (join (dirname current_dir) "word"))
  | (Raise _, (_, c')) =>
      (total_files c' = 0 /\ success_files c' = 0 /\ failed_files c' = []) \/
      one_pending c'
  end.
Proof.
  destruct (process_directory_any current_dir w)
    as (o & w1 & w' & c' & -> & _ & Hout & Hend).
  destruct o as [r | e]; [| exact Hend].
  destruct Hend as [Hcounted ->]. rewrite Hout. split; [exact Hcounted | reflexivity].
Qed.

End WithEnv.
End AccountProps.

(** *** The check of the dependencies *)

Module DependencyProps.
Import St Dependencies Notions.

Section WithDeps.
Context (D : DepEnv).

(** The first loop, when every module imports or is absent. *)
Lemma scan_collects (deps : list (string * string)) :
  forall missing_deps,
    (forall d e, In d deps -> import_module D (snd d) <> Broken e) ->
    scan D deps missing_deps
    = Ok (missing_deps
            ++ map fst (filter (fun d => match import_module D (snd d) with
                                         | NotInstalled => true
                                         | _ => false
                                         end) deps)).
Proof.
  induction deps as [| [pip_name import_name] deps IH]; intros missing_deps Hok; simpl.
  - now rewrite app_nil_r.
  - assert (Hrest : forall d e, In d deps -> import_module D (snd d) <> Broken e)
      by (intros d e Hd; apply Hok; now right).
    destruct (import_module D import_name) as [| | e] eqn:Himport.
    + apply IH. exact Hrest.
    + rewrite (IH _ Hrest). simpl. now rewrite <- app_assoc.
    + exfalso. apply (Hok (pip_name, import_name) e); [now left | exact Himport].
Qed.

(** The first loop raises what a module raises that is not an
    [ImportError]. *)
Lemma scan_raises (deps : list (string * string)) :
  forall missing_deps,
    (exists d e, In d deps /\ import_module D (snd d) = Broken e) ->
    exists e, scan D deps missing_deps = Raise e.
Proof.
  induction deps as [| [pip_name import_name] deps IH]; intros missing_deps (d & e & Hin & Hd).
  - destruct Hin.
  - simpl. destruct (import_module D import_name) as [| | e'] eqn:Himport.
    + apply IH. destruct Hin as [<- | Hin]; [simpl in Hd; congruence | eauto].
    + apply IH. destruct Hin as [<- | Hin]; [simpl in Hd; congruence | eauto].
    + exists e'. reflexivity.
Qed.

(** The second loop: pip runs for the packages in order and stops at the
    first that fails. *)
Lemma pip_loop (deps : list string) :
  forall ran,
    exists o attempted rest,
      for_each deps (run_pip D) ran = (o, ran ++ attempted) /\
      deps = attempted ++ rest /\
      match o with
      | Ok _ => rest = [] /\ Forall (fun dep => pip_install D dep = Ok tt) deps
      | Raise e =>
          exists before dep,
            attempted = before ++ [dep] /\ pip_install D dep = Raise e /\
            Forall (fun dep => pip_install D dep = Ok tt) before
      end.
Proof.
  induction deps as [| dep deps IH]; intros ran.
  - exists (Ok tt), [], []. simpl. unfold St.ret. rewrite app_nil_r. repeat split. constructor.
  - cbn [for_each]. unfold St.bind at 1. unfold run_pip at 1.
    destruct (pip_install D dep) as [[] | e] eqn:Hpip.
    + destruct (IH (ran ++ [dep])) as (o & attempted & rest & -> & -> & Hend).
      exists o, (dep :: attempted), rest. rewrite <- app_assoc. split; [reflexivity |].
      split; [reflexivity |].
      destruct o as [[] | e].
      * destruct Hend as [-> Hall]. split; [reflexivity |]. constructor; assumption.
      * destruct Hend as (before & last & -> & Hlast & Hall).
        exists (dep :: before), last. repeat split; [exact Hlast |]. constructor; assumption.
    + exists (Raise e), [dep], deps. split; [reflexivity |]. split; [reflexivity |].
      exists [], dep. repeat split; [exact Hpip | constructor].
Qed.

(** X15.  The check of the dependencies.  When each of the four modules
    imports or is absent, the check returns a boolean, and pip was run only
    for absent modules, under their pip names, in the listed order and not
    beyond the first install that failed; the answer is [True] exactly when
    every absent module was installed, with no second look at whether it now
    imports.  A module that raises anything but [ImportError] makes the check
    raise before pip is run at all. *)
Theorem dependencies_are_installed_in_order (ran : list string) :
  (no_broken_module D ->
   exists b attempted rest,
     check_and_install_dependencies D ran = (Ok b, ran ++ attempted) /\
     missing D = attempted ++ rest /\
     (b = true <-> Forall (fun dep => pip_install D dep = Ok tt) (missing D)) /\
     (b = true -> rest = []) /\
     (b = false ->
      exists before dep e,
        attempted = before ++ [dep] /\ pip_install D dep = Raise e /\
        Forall (fun dep => pip_install D dep = Ok tt) before)) /\
  ((exists d e, In d dependencies /\ import_module D (snd d) = Broken e) ->
   exists e, check_and_install_dependencies D ran = (Raise e, ran)).
Proof.
  split.
  - intros Hok. unfold check_and_install_dependencies, St.bind at 1, St.lift at 1.
    rewrite (scan_collects dependencies [] Hok). cbn [app]. fold (missing D).
    destruct (missing D) as [| dep deps] eqn:Hmissing.
    + exists true, [], []. unfold St.ret. rewrite app_nil_r.
      split; [reflexivity |]. split; [reflexivity |]. split; [| split].
      * split; [intros _; constructor | reflexivity].
      * reflexivity.
      * discriminate.
    + destruct (pip_loop (dep :: deps) ran) as (o & attempted & rest & Hrun & Hsplit & Hend).
      unfold St.try_except, St.bind. rewrite Hrun.
      destruct o as [[] | e].
      * destruct Hend as [-> Hall]. exists true, attempted, []. unfold St.ret.
        split; [reflexivity |]. split; [exact Hsplit |]. split; [| split].
        -- split; [intros _; exact Hall | reflexivity].
        -- reflexivity.
        -- discriminate.
      * destruct Hend as (before & last & -> & Hlast & Hall).
        exists false, (before ++ [last]), rest. unfold St.ret.
        split; [reflexivity |]. split; [exact Hsplit |]. split; [| split].
        -- split; [discriminate |]. intros Hforall. exfalso.
           rewrite Hsplit in Hforall. rewrite Forall_forall in Hforall.
           specialize (Hforall last). rewrite Hlast in Hforall.
           assert (Hin : In last ((before ++ [last]) ++ rest))
             by (apply in_or_app; left; apply in_or_app; right; now left).
           specialize (Hforall Hin). discriminate.
        -- discriminate.
        -- intros _. exists before, last, e. repeat split; assumption.
  - intros Hbroken. destruct (scan_raises dependencies [] Hbroken) as [e Hscan].
    exists e. unfold check_and_install_dependencies, St.bind, St.lift. now rewrite Hscan.
Qed.

End WithDeps.
End DependencyProps.

(** *** Tables of any shape, and the asset folder's kind *)

Module TableFolderProps.
Import PyStr OsPath Soup Docx Walk Converter St Spec Notions.
Import ImagePlaceholder TableProps RunProps.


Section WithEnv.
Context {W : Type} (E : Env W).

(** X17.  The asset folder of a page.  A folder that is returned is a
    directory lying directly in the page's folder.  When one of the
    conventional names is a directory the folder's listing is not asked for;
    when none is and the listing raises, the search raises the same
    exception instead of answering that there is no folder. *)
Theorem asset_folder_outcomes (w : W) (html_path : string) :
  let html_dir := dirname html_path in
  let html_name := fst (splitext (basename html_path)) in
  let conventional :=
    find (fun p => os_path_exists E w p && os_path_isdir E w p)
         (map (join html_dir) (possible_names html_name)) in
  (forall folder,
     find_associated_files_folder E w html_path = Ok (Some folder) ->
     os_path_isdir E w folder = true /\ exists name, folder = join html_dir name) /\
  (forall folder,
     conventional = Some folder ->
     find_associated_files_folder E w html_path = Ok (Some folder)) /\
  (forall e,
     conventional = None -> os_listdir E w html_dir = Raise e ->
     find_associated_files_folder E w html_path = Raise e).
Proof.
  intros html_dir html_name conventional.
  unfold find_associated_files_folder. fold html_dir. fold html_name. fold conventional.
  split; [| split].
  - intros folder. destruct conventional as [p |] eqn:Hconv.
    + intros [= <-]. unfold conventional in Hconv. apply find_some in Hconv.
      destruct Hconv as [Hin Hdir]. apply andb_true_iff in Hdir. split; [apply Hdir |].
      apply in_map_iff in Hin. destruct Hin as (name & <- & _). exists name. reflexivity.
    + unfold Err.bind. destruct (os_listdir E w html_dir) as [items | e]; [| discriminate].
      destruct (find _ items) as [item |] eqn:Hitem; [| discriminate].
      intros [= <-]. apply find_some in Hitem. destruct Hitem as [_ Hdir].
      apply andb_true_iff in Hdir. split; [apply Hdir | exists item; reflexivity].
  - intros folder ->. reflexivity.
  - intros e -> Hlist. unfold Err.bind. rewrite Hlist. reflexivity.
Qed.

End WithEnv.
End TableFolderProps.

(** *** The runs of a paragraph without image *)

Module InlineProps.
Import PyStr OsPath Soup Docx Walk Converter St Spec Notions.
Import ImagePlaceholder ParagraphProps MapperProps.

Section WithEnv.
Context {W : Type} (E : Env W).




End WithEnv.
End InlineProps.

(** *** The added properties on the folder [/album] *)

Module MoreRuns.
Import PyStr OsPath Soup Docx Walk Converter St Spec Notions Toy Scenario Album.
Import Dependencies.
Import MapperProps ImageSearch DetectionProps PageProps AccountProps.
Import DependencyProps TableFolderProps InlineProps.



(** A break after a paragraph that a table follows goes to the
    paragraph. *)
Lemma br_breaks_last_paragraph_witness :
  convert_br [Para (text_paragraph "one"); TableB [["a"]]]
  = (Ok tt,
     [Para (mkPar None None [text_run "one"; with_break empty_run]); TableB [["a"]]]).
Proof.
  exact (proj2 (br_breaks_last_paragraph [Para (text_paragraph "one"); TableB [["a"]]])
           [] (text_paragraph "one") [TableB [["a"]]] eq_refl eq_refl).
Defined.


(** The photo stands in a centred paragraph of its own. *)
Lemma found_image_is_embedded_witness :
  _insert_image (env album_lenient) [] photo_img "/album/trip.html"
                (Some "/album/trip_files") None []
  = (Ok tt,
     [Para (mkPar None (Some 1)
                  [with_picture "/album/trip_files/img/Photo.JPG" empty_run])]).
Proof.
  exact (@found_image_is_embedded world (env album_lenient) [] photo_attrs []
           "/album/trip.html" (Some "/album/trip_files") None []
           "/album/trip_files/img/Photo.JPG" eq_refl eq_refl eq_refl eq_refl eq_refl).
Defined.

(** A confident [GB2312] is answered as [gb18030], and a file that cannot
    be opened as [utf-8]. *)
Lemma detect_encoding_never_gb2312_witness :
  detect_encoding (env site) [] "/site/page.html" = Ok "gb18030" /\
  detect_encoding (env site) [] "/site/gone.html" = Ok "utf-8".
Proof.
  split; [reflexivity |].
  destruct (@detect_encoding_never_gb2312 world (env site) [] "/site/gone.html")
    as (_ & Hio & _).
  exact (Hio OSError eq_refl).
Defined.



(** The same page fails where the colour of links is refused, and nothing
    is saved. *)
Lemma refused_link_fails_page_witness :
  convert_html_to_word (env album_strict) "/album/trip.html" "/word/trip.docx"
                       (Some "/album/trip_files") []
  = (Ok false, []).
Proof.
  exact (@refused_link_fails_page world (env album_strict) "/album/trip.html"
           "/word/trip.docx" (Some "/album/trip_files") [] "<html>trip</html>"
           (Tag "[document]" [] [Tag "html" [] [trip_body]]) ValueError
           eq_refl eq_refl eq_refl eq_refl).
Defined.

(** The run over [/album] where links are refused lists the one page. *)
Lemma failure_list_holds_discovered_pages_witness :
  failed_files (snd (snd (process_directory (env album_strict) "/album" ([], init))))
  = ["/album/trip.html"] /\
  incl (failed_files (snd (snd (process_directory (env album_strict) "/album" ([], init)))))
       (discovered (walk keep_dir "/album"
                         (Dir ["trip.html"] [("trip_files", trip_files_tree)]))).
Proof.
  split; [reflexivity |].
  exact (@failure_list_holds_discovered_pages world (env album_strict) "/album"
           (Some (Dir ["trip.html"] [("trip_files", trip_files_tree)])) []
           (fun _ => eq_refl)).
Defined.

(** The run over [/album] when the output folder of the page cannot be
    created: the run raises and the page stays pending. *)
Lemma counters_after_a_run_witness :
  fst (process_directory (env album_locked) "/album" ([], init)) = Raise OSError /\
  one_pending (snd (snd (process_directory (env album_locked) "/album" ([], init)))).
Proof.
  split; [reflexivity |].
  generalize (@counters_after_a_run world (env album_locked) "/album" []).
  change (process_directory (env album_locked) "/album" ([], init))
    with (@Raise (nat * nat * option string) OSError,
          (@nil (string * N),
           {| total_files := 1; success_files := 0; failed_files := [];
              output_dir := Some "/word" |})).
  intros [(Htotal & _) | Hpending]; [discriminate Htotal | exact Hpending].
Defined.

(** Two interpreters: pip stops at [chardet]; a broken [lxml] raises. *)
Lemma dependencies_are_installed_in_order_witness :
  missing half_installed = ["beautifulsoup4"; "chardet"] /\
  (exists attempted rest,
     check_and_install_dependencies half_installed [] = (Ok false, attempted) /\
     missing half_installed = attempted ++ rest) /\
  exists e, check_and_install_dependencies broken_lxml [] = (Raise e, []).
Proof.
  split; [reflexivity |]. split.
  - assert (Hok : no_broken_module half_installed).
    { intros d e [<- | [<- | [<- | [<- | []]]]]; discriminate. }
    destruct (proj1 (dependencies_are_installed_in_order half_installed []) Hok)
      as (b & attempted & rest & Hrun & Hsplit & Hiff & _).
    exists attempted, rest. split; [| exact Hsplit].
    destruct b; [| exact Hrun].
    exfalso. destruct Hiff as [Hall _]. specialize (Hall eq_refl).
    change (missing half_installed) with ["beautifulsoup4"; "chardet"] in Hall.
    inversion Hall as [| dep deps _ Hrest]. inversion Hrest as [| dep' deps' Hchardet _].
    discriminate Hchardet.
  - apply (proj2 (dependencies_are_installed_in_order broken_lxml [])).
    exists ("lxml", "lxml"), (OtherException "OSError: libxml2").
    split; [right; right; right; left; reflexivity | reflexivity].
Defined.


(** The asset folder of the album's page is [trip_files]; a page in a
    folder that cannot be listed makes the search raise. *)
Lemma asset_folder_outcomes_witness :
  find_associated_files_folder (env album_lenient) [] "/album/trip.html"
  = Ok (Some "/album/trip_files") /\
  os_path_isdir (env album_lenient) [] "/album/trip_files" = true /\
  find_associated_files_folder (env album_lenient) [] "/attic/old.html" = Raise OSError.
Proof.
  destruct (@asset_folder_outcomes world (env album_lenient) [] "/album/trip.html")
    as (Hdir & Hconventional & _).
  pose proof (Hconventional "/album/trip_files" eq_refl) as Hfound.
  split; [exact Hfound |]. split; [exact (proj1 (Hdir "/album/trip_files" Hfound)) |].
  destruct (@asset_folder_outcomes world (env album_lenient) [] "/attic/old.html")
    as (_ & _ & Hraise).
  exact (Hraise OSError eq_refl eq_refl).
Defined.


End MoreRuns.
